(** * Wellbeing analysis backend: a shallow embedding and its properties

    The development follows [fetch_agents.py] (the primary pipeline,
    class [FetchAgentSystem], called by [app.py]) and [exampleAgents.py]
    (the pattern-based pipeline: [identify_patterns],
    [identify_stressors], [generate_recommendations] and
    [start_analysis]).

    Conventions of the embedding:
    - a Python float is a [pyfloat]: either [NaN] or a finite rational.
      Arithmetic is exact (no binary rounding); infinities never arise on
      the paths modelled here, because every division is guarded in the
      source;
    - a pandas [DataFrame] is its column index and its rows, one field
      per column of the request schema of [app.py]; cells are never
      missing, so [fillna] changes nothing;
    - exceptions are values of [result]; a [try/except Exception] is a
      [match] on that value;
    - numpy, pandas and scikit-learn routines are written out from their
      documented formulas where they are closed formulas (mean, standard
      deviation, Pearson correlation, standard scaling, least squares
      slope, argsort, bincount), with the square root taken as a
      parameter; the k-means solver, the date parser and the text of an
      exception are parameters as a whole ([Libraries]);
    - random data ([generate_mock_health_data]), the clock and the
      session identifier are arguments of the functions that use them;
    - [print] and logging calls are not modelled (nothing the caller can
      observe). *)

From Stdlib Require Import ZArith QArith Qround Qabs Qminmax.
From Stdlib Require Import List Sorted String Ascii Bool.
From Stdlib Require Import Lia Lqa DecimalString.
Import ListNotations.

Local Open Scope Z_scope.

(** ** Python values and builtins *)

Module Py.

Inductive exn : Type :=
| ValueError
| IndexError
| KeyError
| ParserError.

Inductive result (A : Type) : Type :=
| Ok (a : A)
| Raise (e : exn).
Arguments Ok {A} a.
Arguments Raise {A} e.

Definition bind {A B} (m : result A) (k : A -> result B) : result B :=
  match m with
  | Ok a => k a
  | Raise e => Raise e
  end.

Definition of_option {A} (e : exn) (o : option A) : result A :=
  match o with
  | Some a => Ok a
  | None => Raise e
  end.

(** [seq[i]] on a Python list or a numpy array. *)
Definition getitem {A} (l : list A) (i : nat) : result A :=
  of_option IndexError (nth_error l i).

Inductive pyfloat : Type :=
| NaN
| Fin (q : Q).

Definition of_Z (z : Z) : pyfloat := Fin (inject_Z z).

Definition lift1 (f : Q -> Q) (a : pyfloat) : pyfloat :=
  match a with
  | Fin x => Fin (Qred (f x))
  | NaN => NaN
  end.

Definition lift2 (f : Q -> Q -> Q) (a b : pyfloat) : pyfloat :=
  match a, b with
  | Fin x, Fin y => Fin (Qred (f x y))
  | _, _ => NaN
  end.

Definition add := lift2 Qplus.
Definition sub := lift2 Qminus.
Definition mul := lift2 Qmult.
Definition div := lift2 Qdiv.
Definition abs := lift1 Qabs.

Definition Qltb (x y : Q) : bool := negb (Qle_bool y x).

(** Comparisons: every ordered comparison with [NaN] is [False]. *)
Definition ltb (a b : pyfloat) : bool :=
  match a, b with
  | Fin x, Fin y => Qltb x y
  | _, _ => false
  end.

Definition gtb (a b : pyfloat) : bool := ltb b a.

Definition geb (a b : pyfloat) : bool :=
  match a, b with
  | Fin x, Fin y => Qle_bool y x
  | _, _ => false
  end.

Definition is_nan (a : pyfloat) : bool :=
  match a with
  | NaN => true
  | Fin _ => false
  end.

(** The builtin [min(a, b)]: [b] when [b < a], otherwise [a]. *)
Definition min (a b : pyfloat) : pyfloat :=
  if ltb b a then b else a.

(** [int(x)] on a finite float: truncation toward zero. *)
Definition int (q : Q) : Z := Z.quot (Qnum q) (Zpos (Qden q)).

(** [int(x)] on any float: [int(nan)] raises [ValueError]. *)
Definition int_float (a : pyfloat) : result Z :=
  match a with
  | Fin q => Ok (int q)
  | NaN => Raise ValueError
  end.

Definition round_half_even (q : Q) : Z :=
  let f := Qfloor q in
  match Qcompare (q - inject_Z f) (1 # 2) with
  | Lt => f
  | Gt => f + 1
  | Eq => if Z.even f then f else f + 1
  end.

(** [round(x, ndigits)] on a finite value. *)
Definition roundQ (q : Q) (ndigits : nat) : Q :=
  let p := Z.pow 10 (Z.of_nat ndigits) in
  Qred (inject_Z (round_half_even (q * inject_Z p)) / inject_Z p).

(** [round(x, ndigits)]: [nan] stays [nan] when [ndigits] is given. *)
Definition round (a : pyfloat) (ndigits : nat) : pyfloat :=
  match a with
  | Fin q => Fin (roundQ q ndigits)
  | NaN => NaN
  end.

End Py.

Declare Scope py_scope.
Delimit Scope py_scope with py.
Notation "x <- m ;; k" := (Py.bind m (fun x => k))
  (at level 61, m at next level, right associativity) : py_scope.

Import Py.

(** ** Python strings

    A [str] is a Stdlib [string] of 8-bit characters; case conversion is
    the ASCII one. *)

Module PyStr.

Local Open Scope string_scope.

Definition lower_ascii (c : ascii) : ascii :=
  let n := nat_of_ascii c in
  if (Nat.leb 65 n && Nat.leb n 90)%bool then ascii_of_nat (n + 32) else c.

(** [s.lower()] *)
Fixpoint lower (s : string) : string :=
  match s with
  | EmptyString => EmptyString
  | String c s' => String (lower_ascii c) (lower s')
  end.

(** [sub in s] *)
Fixpoint contains (sub s : string) : bool :=
  (String.prefix sub s
   || match s with
      | EmptyString => false
      | String _ s' => contains sub s'
      end)%bool.

(** [s.count(sub)]: occurrences found left to right, without overlap.
    [skip] is the number of characters still covered by the last match. *)
Fixpoint count_from (sub s : string) (skip : nat) : nat :=
  match s with
  | EmptyString => O
  | String _ s' =>
      match skip with
      | S k => count_from sub s' k
      | O =>
          if String.prefix sub s
          then S (count_from sub s' (String.length sub - 1))
          else count_from sub s' O
      end
  end.

Definition count (s sub : string) : nat :=
  match sub with
  | EmptyString => S (String.length s)
  | _ => count_from sub s O
  end.

Definition isspace (c : ascii) : bool :=
  let n := nat_of_ascii c in
  (Nat.eqb n 32 || (Nat.leb 9 n && Nat.leb n 13)
   || (Nat.leb 28 n && Nat.leb n 31))%bool.

(** [len(s.split())]: the number of maximal runs of non-blank
    characters. [inword] tells whether the previous character was part
    of a word. *)
Fixpoint count_words (s : string) (inword : bool) : nat :=
  match s with
  | EmptyString => O
  | String c s' =>
      if isspace c then count_words s' false
      else if inword then count_words s' true
      else S (count_words s' true)
  end.

Definition word_count (s : string) : nat := count_words s false.

(** [sep.join(l)] *)
Fixpoint join (sep : string) (l : list string) : string :=
  match l with
  | [] => EmptyString
  | [x] => x
  | x :: l' => x ++ sep ++ join sep l'
  end.

(** [s.replace(old, new)] for a non-empty [old]: the occurrences found
    left to right, without overlap, are replaced. *)
Fixpoint replace_from (old new s : string) (skip : nat) : string :=
  match s with
  | EmptyString => EmptyString
  | String c s' =>
      match skip with
      | S k => replace_from old new s' k
      | O =>
          if String.prefix old s
          then new ++ replace_from old new s' (String.length old - 1)
          else String c (replace_from old new s' O)
      end
  end.

(** With an empty [old], [new] goes before every character and at the
    end. *)
Fixpoint intersperse (new s : string) : string :=
  match s with
  | EmptyString => new
  | String c s' => new ++ String c (intersperse new s')
  end.

Definition replace (s old new : string) : string :=
  match old with
  | EmptyString => intersperse new s
  | _ => replace_from old new s O
  end.

(** [str(n)] on an [int]. *)
Definition of_int (z : Z) : string := NilZero.string_of_int (Z.to_int z).

Fixpoint zeros (n : nat) : string :=
  match n with
  | O => EmptyString
  | S k => String "0" (zeros k)
  end.

(** [f"{x:.{d}f}"] on a finite value. *)
Definition format_fixedQ (q : Q) (d : nat) : string :=
  let p := Z.pow 10 (Z.of_nat d) in
  let n := Py.round_half_even (Qabs q * inject_Z p) in
  let ip := of_int (n / p) in
  let fp := of_int (n mod p) in
  let sign := if Py.Qltb q 0 then "-" else EmptyString in
  match d with
  | O => sign ++ ip
  | _ => sign ++ ip ++ "." ++ zeros (d - String.length fp) ++ fp
  end.

(** [f"{x:.{d}f}"] *)
Definition format_fixed (a : pyfloat) (d : nat) : string :=
  match a with
  | Fin q => format_fixedQ q d
  | NaN => "nan"
  end.

End PyStr.


(** ** The library routines the analysis calls

    [np_sqrt] is [numpy.sqrt]; [kmeans_solver n_clusters random_state
    n_init X] is the fitted [sklearn.cluster.KMeans] on a valid problem
    (cluster centres and one label per row), or the exception it raises,
    [n_init] being [None] where the caller leaves the default;
    [to_datetime] is the parser behind [pandas.to_datetime] on one cell;
    [str_exn] is [str(e)], the text the raising library gave the
    exception. *)

Class Libraries : Type := {
  np_sqrt : Q -> Q;
  kmeans_solver :
    nat -> Z -> option nat -> list (list Q)
    -> result (list (list Q) * list nat);
  to_datetime : string -> option Z;
  str_exn : exn -> string
}.

Module Np.

Local Open Scope Q_scope.

Definition sum (xs : list Q) : Q := fold_right Qplus 0 xs.

Definition len (xs : list Q) : Q := inject_Z (Z.of_nat (List.length xs)).

(** [Series.mean()]; the mean of an empty column is [nan]. *)
Definition mean (xs : list Q) : pyfloat :=
  match xs with
  | [] => NaN
  | _ => Fin (Qred (sum xs / len xs))
  end.

(** Sum of squared deviations from [m]. *)
Definition ssqdm (m : Q) (xs : list Q) : Q :=
  sum (map (fun x => (x - m) * (x - m)) xs).

(** [Series.min()], [Series.max()] *)
Definition series_min (xs : list Q) : pyfloat :=
  match xs with
  | [] => NaN
  | x :: r => Fin (fold_left Qmin r x)
  end.

Definition series_max (xs : list Q) : pyfloat :=
  match xs with
  | [] => NaN
  | x :: r => Fin (fold_left Qmax r x)
  end.

(** [np.arange(n)] *)
Definition arange (n : nat) : list Q :=
  map (fun i => inject_Z (Z.of_nat i)) (seq 0 n).

(** [np.polyfit(x, y, 1)[0]]: the least squares slope. *)
Definition polyfit_slope (xs ys : list Q) : Q :=
  let mx := sum xs / len xs in
  let my := sum ys / len ys in
  Qred (sum (map (fun p => (fst p - mx) * (snd p - my)) (combine xs ys))
        / ssqdm mx xs).

Fixpoint insert_by_key (p : nat * Q) (l : list (nat * Q)) : list (nat * Q) :=
  match l with
  | [] => [p]
  | h :: t =>
      if Qle_bool (snd h) (snd p) then h :: insert_by_key p t else p :: h :: t
  end.

Definition sort_by_key (l : list (nat * Q)) : list (nat * Q) :=
  fold_left (fun acc p => insert_by_key p acc) l [].

(** [np.argsort(keys)]: the indices that sort [keys] in ascending order
    (equal keys keep their relative order, as numpy's sort does on
    short arrays). *)
Definition argsort (keys : list Q) : list nat :=
  map fst (sort_by_key (combine (seq 0 (List.length keys)) keys)).

(** [np.bincount(labels)]: one counter per value in
    [0 .. max(labels)]. *)
Definition bincount (labels : list nat) : list Z :=
  match labels with
  | [] => []
  | _ =>
      map (fun k => Z.of_nat (List.length (filter (Nat.eqb k) labels)))
          (seq 0 (S (fold_right Nat.max O labels)))
  end.

Definition column (X : list (list Q)) (j : nat) : list Q :=
  map (fun row => nth j row 0) X.

Fixpoint zip_with3 (f : Q -> Q -> Q -> Q) (a b c : list Q) : list Q :=
  match a, b, c with
  | x :: a', y :: b', z :: c' => f x y z :: zip_with3 f a' b' c'
  | _, _, _ => []
  end.

Section WithLibraries.

Context {L : Libraries}.

(** [Series.std()]: the sample standard deviation ([ddof=1]), [nan]
    with fewer than two rows. *)
Definition std (xs : list Q) : pyfloat :=
  match mean xs with
  | NaN => NaN
  | Fin m =>
      if Nat.leb (List.length xs) 1 then NaN
      else Fin (np_sqrt (Qred (ssqdm m xs / (len xs - 1))))
  end.

(** One cell of [DataFrame.corr()] (Pearson): [nan] when either
    column has no spread, and kept within [-1, 1]. *)
Definition corr (xs ys : list Q) : pyfloat :=
  match mean xs, mean ys with
  | Fin mx, Fin my =>
      let covxy :=
        sum (map (fun p => (fst p - mx) * (snd p - my)) (combine xs ys)) in
      let divisor := np_sqrt (Qred (ssqdm mx xs * ssqdm my ys)) in
      if Qeq_bool divisor 0 then NaN
      else Fin (Qred (Qmax (-1) (Qmin 1 (covxy / divisor))))
  | _, _ => NaN
  end.

(** [sklearn.preprocessing.StandardScaler] *)
Record StandardScaler : Type := {
  mean_ : list Q;
  scale_ : list Q
}.

Definition column_mean (xs : list Q) : Q := Qred (sum xs / len xs).

(** The population standard deviation, with a constant column
    scaled by 1. *)
Definition column_scale (xs : list Q) : Q :=
  let v := Qred (ssqdm (column_mean xs) xs / len xs) in
  if Qeq_bool v 0 then 1 else np_sqrt v.

(** [scaler.fit(X)] raises [ValueError] on an array without rows. *)
Definition fit (X : list (list Q)) : result StandardScaler :=
  match X with
  | [] => Raise ValueError
  | row :: _ =>
      let cols := map (column X) (seq 0 (List.length row)) in
      Ok {| mean_ := map column_mean cols;
            scale_ := map column_scale cols |}
  end.

Definition transform (sc : StandardScaler) (X : list (list Q))
  : list (list Q) :=
  map (fun row =>
         zip_with3 (fun x m s => Qred ((x - m) / s))
                   row (mean_ sc) (scale_ sc)) X.

Definition inverse_transform (sc : StandardScaler) (X : list (list Q))
  : list (list Q) :=
  map (fun row =>
         zip_with3 (fun x m s => Qred (x * s + m))
                   row (mean_ sc) (scale_ sc)) X.

(** The fitted estimator: [cluster_centers_] and [labels_]. *)
Record KMeansFit : Type := {
  cluster_centers_ : list (list Q);
  labels_ : list nat
}.

(** [KMeans(n_clusters, random_state, n_init).fit(X)]: the parameter
    and sample-count validation of scikit-learn, then the solver. *)
Definition KMeans (n_clusters : nat) (random_state : Z)
           (n_init : option nat) (X : list (list Q)) : result KMeansFit :=
  if Nat.eqb n_clusters 0 then Raise ValueError
  else if Nat.ltb (List.length X) n_clusters then Raise ValueError
  else
    match kmeans_solver n_clusters random_state n_init X with
    | Ok (centers, labels) =>
        Ok {| cluster_centers_ := centers; labels_ := labels |}
    | Raise e => Raise e
    end.

End WithLibraries.

End Np.

(** ** The request schema ([app.py]) and the data frame built from it *)

Module WellbeingEntry.
Record t : Type := {
  date : string;
  mood : Z;
  energy : Z;
  steps : Z;
  screenTimeMinutes : Z;
  sleepHours : Q;
  heartRate : Z;
  caloriesBurned : Z;
  waterIntake : Z;
  dailyJournal : string;
  emotionalState : string
}.
End WellbeingEntry.

(** A cell of the [date] column: the string of the request, or the
    timestamp [pd.to_datetime] made of it. *)
Inductive DateCell : Type :=
| DateStr (s : string)
| Timestamp (t : Z).

Module Row.
Record t : Type := {
  date : DateCell;
  mood : Q;
  energy : Q;
  steps : Q;
  screenTimeMinutes : Q;
  sleepHours : Q;
  heartRate : Q;
  caloriesBurned : Q;
  waterIntake : Q;
  dailyJournal : string;
  emotionalState : string
}.

Definition of_entry (e : WellbeingEntry.t) : t :=
  {| date := DateStr (WellbeingEntry.date e);
     mood := inject_Z (WellbeingEntry.mood e);
     energy := inject_Z (WellbeingEntry.energy e);
     steps := inject_Z (WellbeingEntry.steps e);
     screenTimeMinutes := inject_Z (WellbeingEntry.screenTimeMinutes e);
     sleepHours := WellbeingEntry.sleepHours e;
     heartRate := inject_Z (WellbeingEntry.heartRate e);
     caloriesBurned := inject_Z (WellbeingEntry.caloriesBurned e);
     waterIntake := inject_Z (WellbeingEntry.waterIntake e);
     dailyJournal := WellbeingEntry.dailyJournal e;
     emotionalState := WellbeingEntry.emotionalState e |}.

Definition set_date (d : DateCell) (r : t) : t :=
  {| date := d; mood := mood r; energy := energy r; steps := steps r;
     screenTimeMinutes := screenTimeMinutes r; sleepHours := sleepHours r;
     heartRate := heartRate r; caloriesBurned := caloriesBurned r;
     waterIntake := waterIntake r; dailyJournal := dailyJournal r;
     emotionalState := emotionalState r |}.
End Row.

(** A frame is its column index and its rows; [df[c]] is read off the
    rows, and is only read by the source after [c in df.columns]. *)
Module DataFrame.

Local Open Scope string_scope.

Record t : Type := {
  columns : list string;
  rows : list Row.t
}.

Definition all_columns : list string :=
  ["date"; "mood"; "energy"; "steps"; "screenTimeMinutes"; "sleepHours";
   "heartRate"; "caloriesBurned"; "waterIntake"; "dailyJournal";
   "emotionalState"].

(** [pd.DataFrame(entries)]: the columns are the keys of the entries,
    so a frame made of no entry has no column. *)
Definition of_entries (entries : list WellbeingEntry.t) : t :=
  {| columns := match entries with [] => [] | _ => all_columns end;
     rows := map Row.of_entry entries |}.

(** [c in df.columns] *)
Definition has (df : t) (c : string) : bool :=
  existsb (String.eqb c) (columns df).

(** [len(df)] *)
Definition len (df : t) : nat := List.length (rows df).

(** [df[c]] for a column of numbers or of strings. *)
Definition col {A} (f : Row.t -> A) (df : t) : list A := map f (rows df).

(** The numeric columns by name. *)
Definition numeric (c : string) : Row.t -> Q :=
  if String.eqb c "mood" then Row.mood
  else if String.eqb c "energy" then Row.energy
  else if String.eqb c "steps" then Row.steps
  else if String.eqb c "heartRate" then Row.heartRate
  else if String.eqb c "sleepHours" then Row.sleepHours
  else if String.eqb c "screenTimeMinutes" then Row.screenTimeMinutes
  else if String.eqb c "caloriesBurned" then Row.caloriesBurned
  else Row.waterIntake.

End DataFrame.

(** ** The primary pipeline: [fetch_agents.py] *)

Module Sleep.
Record t : Type := {
  average : pyfloat;
  consistency : pyfloat;
  deficit : bool;
  minimum : pyfloat;
  maximum : pyfloat
}.
End Sleep.

Module Cluster.
Record t : Type := {
  steps : Z;
  heartRate : Z;
  sleepHours : Q
}.
End Cluster.

Module ActivityPatterns.
Record t : Type := {
  low_activity_days : Q;
  moderate_activity_days : Q;
  high_activity_days : Q;
  low : Cluster.t;
  moderate : Cluster.t;
  high : Cluster.t
}.
End ActivityPatterns.

Module ScreenTime.
Record t : Type := {
  average_minutes : pyfloat;
  excessive : bool;
  recommended_limit_minutes : Z
}.
End ScreenTime.

Module Physical.
Record t : Type := {
  sleep : option Sleep.t;
  activity_patterns : option ActivityPatterns.t;
  screen_time : option ScreenTime.t
}.
End Physical.

Module MoodPatterns.
Record t : Type := {
  average : pyfloat;
  volatility : pyfloat;
  trend : string
}.
End MoodPatterns.

Module EnergyPatterns.
Record t : Type := {
  average : pyfloat;
  volatility : pyfloat
}.
End EnergyPatterns.

Module Sentiment.
Record t : Type := {
  overall : string;
  positive_ratio : Q;
  negative_ratio : Q
}.
End Sentiment.

Module StressIndicators.
Record t : Type := {
  mentions : Z;
  word_count : Z;
  stress_score : Z
}.
End StressIndicators.

Module Emotional.
Record t : Type := {
  mood_patterns : option MoodPatterns.t;
  energy_patterns : option EnergyPatterns.t;
  sentiment : option Sentiment.t;
  stress_indicators : option StressIndicators.t
}.
End Emotional.

Module Factor.
Record t : Type := {
  metric : string;
  correlation : Q;
  relationship : string;
  impact : string
}.
End Factor.

Module Correlations.
Record t : Type := {
  mood_factors : option (list Factor.t)
}.
End Correlations.

Module Stressor.
Record t : Type := {
  name : string;
  level : Z;
  description : string;
  impact : string
}.
End Stressor.

Module Recommendation.
Record t : Type := {
  target : string;
  recommendation : string;
  priority : string;
  actions : list string
}.
End Recommendation.

Module Insights.
Record t : Type := {
  physical : Physical.t;
  emotional : Emotional.t;
  correlations : Correlations.t
}.
End Insights.

Module Report.
Record t : Type := {
  session_id : string;
  analysis_timestamp : string;
  stressors : list Stressor.t;
  recommendations : list Recommendation.t;
  insights : Insights.t
}.
End Report.

Module FetchAgentSystem.

Local Open Scope string_scope.
Local Open Scope Q_scope.
Local Open Scope py_scope.

(** [self]: the session identifier drawn once by [__init__]. *)
Record t : Type := {
  session_id : string
}.

Section Pipeline.

Context {L : Libraries}.

(** The date conversion of [analyze_data]: when the [date] column
    holds strings, every cell goes through [pd.to_datetime]. *)
Definition parse_cell (d : DateCell) : result DateCell :=
  match d with
  | DateStr s =>
      match to_datetime s with
      | Some t => Ok (Timestamp t)
      | None => Raise ParserError
      end
  | Timestamp t => Ok (Timestamp t)
  end.

Fixpoint parse_rows (rs : list Row.t) : result (list Row.t) :=
  match rs with
  | [] => Ok []
  | r :: rs' =>
      d <- parse_cell (Row.date r) ;;
      rs'' <- parse_rows rs' ;;
      Ok (Row.set_date d r :: rs'')
  end.

Definition convert_dates (df : DataFrame.t) : result DataFrame.t :=
  if DataFrame.has df "date" then
    first <- getitem (DataFrame.col Row.date df) 0 ;;
    match first with
    | DateStr _ =>
        rs <- parse_rows (DataFrame.rows df) ;;
        Ok {| DataFrame.columns := DataFrame.columns df;
              DataFrame.rows := rs |}
    | Timestamp _ => Ok df
    end
  else Ok df.

(** *** Physical metrics *)

Definition sleep_insight (df : DataFrame.t) : Sleep.t :=
  let sleepHours := DataFrame.col Row.sleepHours df in
  let avg_sleep := Np.mean sleepHours in
  let sleep_std := Np.std sleepHours in
  let sleep_deficit := Py.ltb avg_sleep (Fin 7) in
  {| Sleep.average := Py.round avg_sleep 2;
     Sleep.consistency :=
       Py.round
         (Py.mul (Fin 100)
            (Py.sub (Fin 1) (Py.min (Fin 1) (Py.div sleep_std (Fin 2)))))
         2;
     Sleep.deficit := sleep_deficit;
     Sleep.minimum := Py.round (Np.series_min sleepHours) 2;
     Sleep.maximum := Py.round (Np.series_max sleepHours) 2 |}.

(** One entry of ["clusters"]: the centre [cluster_centers[i]] in the
    original units. *)
Definition cluster_profile (cluster_centers : list (list Q)) (i : nat)
  : result Cluster.t :=
  c <- getitem cluster_centers i ;;
  c0 <- getitem c 0 ;;
  c1 <- getitem c 1 ;;
  c2 <- getitem c 2 ;;
  Ok {| Cluster.steps := Py.int c0;
        Cluster.heartRate := Py.int c1;
        Cluster.sleepHours := Py.roundQ c2 2 |}.

Fixpoint center_steps_of (cluster_centers : list (list Q))
  : result (list Q) :=
  match cluster_centers with
  | [] => Ok []
  | center :: rest =>
      s <- getitem center 0 ;;
      ss <- center_steps_of rest ;;
      Ok (s :: ss)
  end.

(** [df[required_columns].values] *)
Definition feature_rows (df : DataFrame.t) : list (list Q) :=
  map (fun r => [Row.steps r; Row.heartRate r; Row.sleepHours r])
      (DataFrame.rows df).

(** The first steps of the [try] block of [_analyze_physical_data]: the
    fitted scaler and the fitted k-means. *)
Definition fit_clusters (features : list (list Q))
  : result (Np.StandardScaler * Np.KMeansFit) :=
  scaler <- Np.fit features ;;
  let normalized_features := Np.transform scaler features in
  kmeans <- Np.KMeans 3 0 (Some 10%nat) normalized_features ;;
  Ok (scaler, kmeans).

(** The body of the [try] block of [_analyze_physical_data]. *)
Definition activity_patterns (df : DataFrame.t)
  : result ActivityPatterns.t :=
  fitted <- fit_clusters (feature_rows df) ;;
  let scaler := fst fitted in
  let kmeans := snd fitted in
  let cluster_centers :=
    Np.inverse_transform scaler (Np.cluster_centers_ kmeans) in
  center_steps <- center_steps_of cluster_centers ;;
  let sorted_indices := Np.argsort center_steps in
  let cluster_counts := Np.bincount (Np.labels_ kmeans) in
  let cluster_percentages :=
    map (fun c => Qred (inject_Z c
                        / inject_Z (Z.of_nat (DataFrame.len df)) * 100))
        cluster_counts in
  i0 <- getitem sorted_indices 0 ;;
  p0 <- getitem cluster_percentages i0 ;;
  i1 <- getitem sorted_indices 1 ;;
  p1 <- getitem cluster_percentages i1 ;;
  i2 <- getitem sorted_indices 2 ;;
  p2 <- getitem cluster_percentages i2 ;;
  low <- cluster_profile cluster_centers i0 ;;
  moderate <- cluster_profile cluster_centers i1 ;;
  high <- cluster_profile cluster_centers i2 ;;
  Ok {| ActivityPatterns.low_activity_days := Py.roundQ p0 2;
        ActivityPatterns.moderate_activity_days := Py.roundQ p1 2;
        ActivityPatterns.high_activity_days := Py.roundQ p2 2;
        ActivityPatterns.low := low;
        ActivityPatterns.moderate := moderate;
        ActivityPatterns.high := high |}.

Definition screen_time_insight (df : DataFrame.t) : ScreenTime.t :=
  let avg_screen := Np.mean (DataFrame.col Row.screenTimeMinutes df) in
  let excessive_screen := Py.gtb avg_screen (Fin 180) in
  {| ScreenTime.average_minutes := Py.round avg_screen 2;
     ScreenTime.excessive := excessive_screen;
     ScreenTime.recommended_limit_minutes := 180%Z |}.

Definition _analyze_physical_data (df : DataFrame.t) : Physical.t :=
  {| Physical.sleep :=
       if DataFrame.has df "sleepHours" then Some (sleep_insight df)
       else None;
     Physical.activity_patterns :=
       if forallb (DataFrame.has df) ["steps"; "heartRate"; "sleepHours"]
       then
         match activity_patterns df with
         | Ok patterns => Some patterns
         | Raise _ => None
         end
       else None;
     Physical.screen_time :=
       if DataFrame.has df "screenTimeMinutes"
       then Some (screen_time_insight df)
       else None |}.

(** *** Emotional data *)

Definition mood_insight (df : DataFrame.t) : MoodPatterns.t :=
  let mood := DataFrame.col Row.mood df in
  let avg_mood := Np.mean mood in
  let mood_std := Np.std mood in
  let mood_trend :=
    if Nat.leb 3 (DataFrame.len df) then
      let x := Np.arange (DataFrame.len df) in
      let slope := Np.polyfit_slope x mood in
      if Py.Qltb (1 # 10) slope then "improving"
      else if Py.Qltb slope (- (1 # 10)) then "declining"
      else "stable"
    else "stable" in
  {| MoodPatterns.average := Py.round avg_mood 2;
     MoodPatterns.volatility := Py.round mood_std 2;
     MoodPatterns.trend := mood_trend |}.

Definition energy_insight (df : DataFrame.t) : EnergyPatterns.t :=
  let energy := DataFrame.col Row.energy df in
  let avg_energy := Np.mean energy in
  let energy_std := Np.std energy in
  {| EnergyPatterns.average := Py.round avg_energy 2;
     EnergyPatterns.volatility := Py.round energy_std 2 |}.

(** The text fields of one row, in the order the source collects
    them. *)
Definition text_fields (df : DataFrame.t) (r : Row.t) : list string :=
  (if DataFrame.has df "emotionalState" then [Row.emotionalState r]
   else [])
  ++ (if DataFrame.has df "dailyJournal" then [Row.dailyJournal r]
      else []).

Definition combined_text (df : DataFrame.t) : string :=
  PyStr.join " "
    (map (fun r => PyStr.join " " (text_fields df r)) (DataFrame.rows df)).

Definition positive_keywords : list string :=
  ["happy"; "joy"; "excited"; "great"; "good"; "wonderful"; "pleased";
   "calm"].

Definition negative_keywords : list string :=
  ["sad"; "unhappy"; "depressed"; "upset"; "down"; "angry"; "mad";
   "frustrated"; "anxious"; "worried"; "stressed"; "overwhelmed"].

Definition stress_keywords : list string :=
  ["stress"; "stressed"; "pressure"; "overwhelmed"; "burnout";
   "exhausted"; "tired"; "deadline"; "workload"; "worried"; "anxiety"].

(** [sum(text.lower().count(keyword) for keyword in keywords)] *)
Definition count_keywords (text : string) (keywords : list string) : Z :=
  fold_left (fun acc keyword =>
               (acc + Z.of_nat (PyStr.count (PyStr.lower text) keyword))%Z)
            keywords 0%Z.

Definition sentiment_of_counts (positive negative : Z) : Sentiment.t :=
  let total_mentions := (positive + negative)%Z in
  let '(sentiment, positive_ratio) :=
    if (0 <? total_mentions)%Z then
      let positive_ratio := inject_Z positive / inject_Z total_mentions in
      (if Py.Qltb (6 # 10) positive_ratio then "positive"
       else if Py.Qltb positive_ratio (4 # 10) then "negative"
       else "mixed",
       positive_ratio)
    else ("neutral", 1 # 2) in
  {| Sentiment.overall := sentiment;
     Sentiment.positive_ratio := Py.roundQ (positive_ratio * 100) 2;
     Sentiment.negative_ratio := Py.roundQ ((1 - positive_ratio) * 100) 2 |}.

Definition sentiment_insight (text : string) : Sentiment.t :=
  sentiment_of_counts (count_keywords text positive_keywords)
                      (count_keywords text negative_keywords).

Definition stress_insight (text : string) : StressIndicators.t :=
  let stress_mentions := count_keywords text stress_keywords in
  {| StressIndicators.mentions := stress_mentions;
     StressIndicators.word_count := Z.of_nat (PyStr.word_count text);
     StressIndicators.stress_score :=
       match text with
       | EmptyString => 0%Z
       | _ => Z.min 10 (stress_mentions * 2)
       end |}.

Definition _analyze_emotional_data (df : DataFrame.t) : Emotional.t :=
  let has_text :=
    (DataFrame.has df "emotionalState"
     || DataFrame.has df "dailyJournal")%bool in
  {| Emotional.mood_patterns :=
       if DataFrame.has df "mood" then Some (mood_insight df) else None;
     Emotional.energy_patterns :=
       if DataFrame.has df "energy" then Some (energy_insight df)
       else None;
     Emotional.sentiment :=
       if has_text then Some (sentiment_insight (combined_text df))
       else None;
     Emotional.stress_indicators :=
       if has_text then Some (stress_insight (combined_text df))
       else None |}.

(** *** Correlations with mood *)

Definition correlation_columns : list string :=
  ["mood"; "energy"; "steps"; "heartRate"; "sleepHours";
   "screenTimeMinutes"].

Definition available_columns (df : DataFrame.t) : list string :=
  filter (DataFrame.has df) correlation_columns.

(** [corr_matrix['mood'].drop('mood')]: one coefficient per other
    available column, in column order. *)
Definition mood_correlations (df : DataFrame.t)
  : list (string * pyfloat) :=
  map (fun c =>
         (c, Np.corr (DataFrame.col (DataFrame.numeric c) df)
                     (DataFrame.col Row.mood df)))
      (filter (fun c => negb (String.eqb c "mood"))
              (available_columns df)).

(** The body of the loop over [mood_correlations.items()]. *)
Definition significant (metric : string) (value : pyfloat)
  : list Factor.t :=
  match value with
  | Fin v =>
      if Qle_bool (3 # 10) (Qabs v) then
        [{| Factor.metric := metric;
            Factor.correlation := Py.roundQ v 2;
            Factor.relationship :=
              if Py.Qltb 0 v then "positive" else "negative";
            Factor.impact :=
              if Py.Qltb (7 # 10) (Qabs v) then "strong"
              else if Py.Qltb (5 # 10) (Qabs v) then "moderate"
              else "weak" |}]
      else []
  | NaN => []
  end.

Definition _find_correlations (df : DataFrame.t)
           (physical_insights : Physical.t)
           (emotional_insights : Emotional.t) : Correlations.t :=
  let available := available_columns df in
  if (existsb (String.eqb "mood") available
      && Nat.ltb 1 (List.length available))%bool
  then
    {| Correlations.mood_factors :=
         Some (flat_map (fun p => significant (fst p) (snd p))
                        (mood_correlations df)) |}
  else {| Correlations.mood_factors := None |}.

(** *** Stressors *)

Definition sleep_deficit_rule (df : DataFrame.t) : list Stressor.t :=
  if DataFrame.has df "sleepHours" then
    match Np.mean (DataFrame.col Row.sleepHours df) with
    | Fin avg_sleep =>
        if Py.Qltb avg_sleep 7 then
          let stressor_level := Z.min 10 (Py.int (10 - avg_sleep)) in
          [{| Stressor.name := "Sleep Deficit";
              Stressor.level := stressor_level;
              Stressor.description :=
                "Your average sleep of "
                ++ PyStr.format_fixedQ avg_sleep 1
                ++ " hours is below the recommended 7-9 hours";
              Stressor.impact :=
                "High sleep deficit can affect mood, cognitive function, and physical health" |}]
        else []
    | NaN => []
    end
  else [].

Definition digital_overload_rule (df : DataFrame.t) : list Stressor.t :=
  if DataFrame.has df "screenTimeMinutes" then
    match Np.mean (DataFrame.col Row.screenTimeMinutes df) with
    | Fin avg_screen =>
        if Py.Qltb 180 avg_screen then
          let screen_hours := avg_screen / 60 in
          let stressor_level := Z.min 10 (Py.int screen_hours) in
          [{| Stressor.name := "Digital Overload";
              Stressor.level := stressor_level;
              Stressor.description :=
                "Your average screen time of "
                ++ PyStr.format_fixedQ screen_hours 1
                ++ " hours may be impacting your wellbeing";
              Stressor.impact :=
                "Excessive screen time can contribute to eye strain, sleep issues, and reduced physical activity" |}]
        else []
    | NaN => []
    end
  else [].

Definition low_mood_rule (df : DataFrame.t) : list Stressor.t :=
  if DataFrame.has df "mood" then
    match Np.mean (DataFrame.col Row.mood df) with
    | Fin avg_mood =>
        if Py.Qltb avg_mood 5 then
          let mood_level := (11 - Py.int avg_mood)%Z in
          [{| Stressor.name := "Low Mood Patterns";
              Stressor.level := mood_level;
              Stressor.description :=
                "Your mood ratings average "
                ++ PyStr.format_fixedQ avg_mood 1
                ++ "/10, suggesting potential emotional challenges";
              Stressor.impact :=
                "Persistent low mood can affect overall wellbeing and daily functioning" |}]
        else []
    | NaN => []
    end
  else [].

Definition low_activity_rule (df : DataFrame.t) : list Stressor.t :=
  if DataFrame.has df "steps" then
    match Np.mean (DataFrame.col Row.steps df) with
    | Fin avg_steps =>
        if Py.Qltb avg_steps 5000 then
          let activity_level :=
            Z.min 10 (Py.int (10 - avg_steps / 1000)) in
          [{| Stressor.name := "Low Physical Activity";
              Stressor.level := activity_level;
              Stressor.description :=
                "Your average of "
                ++ PyStr.format_fixedQ avg_steps 0
                ++ " steps is below the recommended 7,000-10,000 steps";
              Stressor.impact :=
                "Insufficient physical activity can negatively impact mood, energy levels, and overall health" |}]
        else []
    | NaN => []
    end
  else [].

(** [any(s["name"] == n for s in stressors)] *)
Definition any_named (n : string) (stressors : list Stressor.t) : bool :=
  existsb (fun s => String.eqb (Stressor.name s) n) stressors.

(** One turn of the loop over [correlations["mood_factors"]]. *)
Definition correlation_rule (stressors : list Stressor.t)
           (factor : Factor.t) : list Stressor.t :=
  if (String.eqb (Factor.relationship factor) "negative"
      && existsb (String.eqb (Factor.impact factor))
                 ["moderate"; "strong"])%bool
  then
    let metric := Factor.metric factor in
    let correlation := Factor.correlation factor in
    if (String.eqb metric "screenTimeMinutes"
        && negb (any_named "Digital Overload" stressors))%bool
    then
      stressors
      ++ [{| Stressor.name := "Screen Time Impact";
             Stressor.level := Z.min 10 (Py.int (Qabs correlation * 10));
             Stressor.description :=
               "Screen time appears to be negatively affecting your mood";
             Stressor.impact :=
               "Your data shows that higher screen time correlates with lower mood scores" |}]
    else if (String.eqb metric "sleepHours"
             && negb (any_named "Sleep Deficit" stressors))%bool
    then
      stressors
      ++ [{| Stressor.name := "Sleep Quality Impact";
             Stressor.level := Z.min 10 (Py.int (Qabs correlation * 10));
             Stressor.description :=
               "Sleep patterns appear to be significantly affecting your mood";
             Stressor.impact :=
               "Your data shows that sleep hours correlate strongly with mood changes" |}]
    else stressors
  else stressors.

Definition threshold_stressors (df : DataFrame.t) : list Stressor.t :=
  sleep_deficit_rule df ++ digital_overload_rule df
  ++ low_mood_rule df ++ low_activity_rule df.

Definition _identify_stressors (df : DataFrame.t)
           (correlations : Correlations.t) : list Stressor.t :=
  let stressors := threshold_stressors df in
  match Correlations.mood_factors correlations with
  | Some mood_factors => fold_left correlation_rule mood_factors stressors
  | None => stressors
  end.

(** *** Recommendations *)

Definition priority_of (level : Z) : string :=
  if (7 <=? level)%Z then "high" else "medium".

Definition sleep_recommendation (level : Z) : Recommendation.t :=
  {| Recommendation.target := "Sleep Optimization";
     Recommendation.recommendation := "Improve sleep quality and duration";
     Recommendation.priority := priority_of level;
     Recommendation.actions :=
       ["Establish a consistent sleep schedule, going to bed and waking up at the same time daily";
        "Create a relaxing bedtime routine (reading, gentle stretching, warm bath)";
        "Limit screen time at least 1 hour before bed";
        "Ensure your bedroom is dark, quiet, and cool";
        "Consider using a sleep tracking app for more detailed insights"] |}.

Definition digital_recommendation (level : Z) : Recommendation.t :=
  {| Recommendation.target := "Digital Wellbeing";
     Recommendation.recommendation :=
       "Reduce screen time and improve digital habits";
     Recommendation.priority := priority_of level;
     Recommendation.actions :=
       ["Set specific times to check emails and social media";
        "Use 'Do Not Disturb' mode during focus time and before bed";
        "Take regular breaks using the 20-20-20 rule (every 20 minutes, look at something 20 feet away for 20 seconds)";
        "Designate screen-free times or zones in your home";
        "Use screen time tracking apps to set limits on device usage"] |}.

Definition mood_recommendation (level : Z) : Recommendation.t :=
  {| Recommendation.target := "Mood Enhancement";
     Recommendation.recommendation :=
       "Implement strategies to improve emotional wellbeing";
     Recommendation.priority := priority_of level;
     Recommendation.actions :=
       ["Schedule small moments of joy throughout your day";
        "Practice gratitude by noting three positive things daily";
        "Spend time in nature - even a short walk in a park can boost mood";
        "Reach out to supportive friends or family regularly";
        "Consider mindfulness or meditation practices to manage stress"] |}.

Definition activity_recommendation (level target : Z)
  : Recommendation.t :=
  {| Recommendation.target := "Physical Activity";
     Recommendation.recommendation := "Gradually increase daily activity";
     Recommendation.priority := priority_of level;
     Recommendation.actions :=
       ["Set a goal of " ++ PyStr.of_int target ++ " steps daily";
        "Break up long sitting periods with short walks";
        "Schedule 10-minute movement breaks throughout your day";
        "Find physical activities you enjoy to make movement sustainable";
        "Consider tracking progress with a fitness app or device"] |}.

Definition general_recommendation : Recommendation.t :=
  {| Recommendation.target := "General Wellbeing";
     Recommendation.recommendation :=
       "Incorporate balanced wellbeing practices";
     Recommendation.priority := "medium";
     Recommendation.actions :=
       ["Maintain a consistent daily routine";
        "Stay hydrated and eat nutritious meals";
        "Take short breaks throughout the day to reset";
        "Practice deep breathing or meditation when feeling stressed";
        "Balance work with activities you enjoy"] |}.

(** The body of the loop over the stressors: the recommendations it
    appends (none or one), or the exception of [int(nan)]. *)
Definition recommend (df : DataFrame.t) (stressor : Stressor.t)
  : result (list Recommendation.t) :=
  let name := Stressor.name stressor in
  let level := Stressor.level stressor in
  if PyStr.contains "Sleep" name then Ok [sleep_recommendation level]
  else if (PyStr.contains "Digital" name
           || PyStr.contains "Screen" name)%bool
  then Ok [digital_recommendation level]
  else if PyStr.contains "Mood" name then Ok [mood_recommendation level]
  else if (PyStr.contains "Activity" name
           || PyStr.contains "steps" (PyStr.lower name))%bool
  then
    let current_avg :=
      if DataFrame.has df "steps"
      then Np.mean (DataFrame.col Row.steps df)
      else Fin 3000 in
    scaled <- Py.int_float (Py.mul current_avg (Fin (12 # 10))) ;;
    let target := Z.min scaled 10000 in
    Ok [activity_recommendation level target]
  else Ok [].

Fixpoint recommend_all (df : DataFrame.t) (stressors : list Stressor.t)
  : result (list Recommendation.t) :=
  match stressors with
  | [] => Ok []
  | stressor :: rest =>
      r <- recommend df stressor ;;
      rs <- recommend_all df rest ;;
      Ok (r ++ rs)%list
  end.

Definition _generate_recommendations (stressors : list Stressor.t)
           (df : DataFrame.t) : result (list Recommendation.t) :=
  recommendations <- recommend_all df stressors ;;
  if Nat.ltb (List.length recommendations) 2
  then Ok (recommendations ++ [general_recommendation])%list
  else Ok recommendations.

(** *** The operation offered to the caller

    [now] is [datetime.now().isoformat()] at the time of the call. *)
Definition analyze_data (self : t) (now : string)
           (entries : list WellbeingEntry.t) : result Report.t :=
  df <- convert_dates (DataFrame.of_entries entries) ;;
  let physical_insights := _analyze_physical_data df in
  let emotional_insights := _analyze_emotional_data df in
  let correlations :=
    _find_correlations df physical_insights emotional_insights in
  let stressors := _identify_stressors df correlations in
  recommendations <- _generate_recommendations stressors df ;;
  Ok {| Report.session_id := session_id self;
        Report.analysis_timestamp := now;
        Report.stressors := stressors;
        Report.recommendations := recommendations;
        Report.insights :=
          {| Insights.physical := physical_insights;
             Insights.emotional := emotional_insights;
             Insights.correlations := correlations |} |}.

End Pipeline.

End FetchAgentSystem.

(** ** The pattern-based variant: [exampleAgents.py] *)

(** One day of [generate_mock_health_data]. *)
Module HealthRecord.
Record t : Type := {
  date : string;
  heart_rate_avg : Q;
  screen_time_hours : Q;
  screen_time_productivity : Q;
  steps_walked : Z;
  sleep_hours : Q;
  sleep_quality : Q;
  energy_level : Z;
  mood_level : Z;
  daily_journal : string;
  emotional_journal : string;
  activities : list (string * Q)
}.
End HealthRecord.

(** The frame of [start_analysis]: [pd.DataFrame(health_data)] with one
    [activity_<name>] column per key of the first record's
    [activities]. *)
Module HealthFrame.

Local Open Scope string_scope.

Record t : Type := {
  rows : list HealthRecord.t;
  activity_keys : list string
}.

(** [x.get(activity, 0)] *)
Fixpoint get (activity : string) (x : list (string * Q)) : Q :=
  match x with
  | [] => 0
  | (k, v) :: x' => if String.eqb k activity then v else get activity x'
  end.

(** [health_data[0]] raises [IndexError] on an empty list. *)
Definition of_records (health_data : list HealthRecord.t) : result t :=
  match health_data with
  | [] => Raise IndexError
  | first :: _ =>
      Ok {| rows := health_data;
            activity_keys := map fst (HealthRecord.activities first) |}
  end.

(** [len(df)] *)
Definition len (df : t) : nat := List.length (rows df).

(** A column: its name and how it is read off a row. *)
Definition column : Type := (string * (HealthRecord.t -> Q))%type.

Definition numeric_cols : list column :=
  [("heart_rate_avg", HealthRecord.heart_rate_avg);
   ("screen_time_hours", HealthRecord.screen_time_hours);
   ("screen_time_productivity", HealthRecord.screen_time_productivity);
   ("steps_walked", fun r => inject_Z (HealthRecord.steps_walked r));
   ("sleep_hours", HealthRecord.sleep_hours);
   ("sleep_quality", HealthRecord.sleep_quality);
   ("energy_level", fun r => inject_Z (HealthRecord.energy_level r));
   ("mood_level", fun r => inject_Z (HealthRecord.mood_level r))].

(** [[col for col in df.columns if col.startswith('activity_')]] *)
Definition activity_cols (df : t) : list column :=
  map (fun k => ("activity_" ++ k,
                 fun r => get k (HealthRecord.activities r)))
      (activity_keys df).

(** The three columns shifted by one day. *)
Definition next_day_cols : list column :=
  [("mood_level_next_day",
    fun r => inject_Z (HealthRecord.mood_level r));
   ("energy_level_next_day",
    fun r => inject_Z (HealthRecord.energy_level r));
   ("sleep_quality_next_day", HealthRecord.sleep_quality)].

End HealthFrame.

Module Profile.
Record t : Type := {
  sleep_quality : Q;
  screen_time : Q;
  steps : Q;
  mood : Q;
  energy : Q
}.
End Profile.

(** A pattern dictionary; the constructor is its ['type']. *)
Inductive Pattern : Type :=
| Correlation (factor1 factor2 : string) (strength : Q)
              (description : string)
| Threshold (factor : string) (threshold : Z) (effect_on : string)
            (effect_size : Q) (description : string)
| Cluster (cluster_id : nat) (day_quality : string) (frequency : nat)
          (profile : Profile.t) (description : string).

(** A stressor dictionary of the pattern-based pipeline; a key that a
    kind of stressor does not carry is [None]. *)
Module PatternStressor.
Record t : Type := {
  type : string;
  factor : option string;
  impact_on : option string;
  strength : option Q;
  frequency : option Z;
  avg_value : option Q;
  avg_hours : option Q;
  description : string
}.
End PatternStressor.

Module Advice.
Record t : Type := {
  stressor : string;
  recommendation : string;
  evidence : string;
  impact : string
}.
End Advice.

(** What [start_analysis] returns: the full result, or the error
    dictionary of its [except] branch. *)
Inductive AnalysisResult : Type :=
| Analysis (user_id analysis_date : string) (patterns : list Pattern)
           (stressors : list PatternStressor.t)
           (recommendations : list Advice.t)
| AnalysisError (user_id error analysis_date : string).

Module ExampleAgents.

Local Open Scope string_scope.
Local Open Scope Q_scope.
Local Open Scope py_scope.

Section Patterns.

Context {L : Libraries}.

(** *** [identify_patterns] *)

(** One cell of the correlation step: [col1] on the days that have a
    next day, against [col2] one day later. *)
Definition correlation_pattern (df : HealthFrame.t)
           (col1 col2 : HealthFrame.column) : list Pattern :=
  let corr :=
    Np.corr (map (snd col1) (removelast (HealthFrame.rows df)))
            (map (snd col2) (tl (HealthFrame.rows df))) in
  match corr with
  | Fin c =>
      if Py.Qltb (3 # 10) (Qabs c) then
        [Correlation (fst col1) (fst col2) c
           (PyStr.replace (fst col1) "_" " " ++ " "
            ++ (if Py.Qltb 0 c then "positively" else "negatively")
            ++ " affects "
            ++ PyStr.replace
                 (PyStr.replace (fst col2) "_next_day" " the next day")
                 "_" " "
            ++ " (correlation: " ++ PyStr.format_fixedQ c 2 ++ ")")]
      else []
  | NaN => []
  end.

Definition correlation_patterns (df : HealthFrame.t) : list Pattern :=
  flat_map (fun col1 =>
              flat_map (correlation_pattern df col1)
                       HealthFrame.next_day_cols)
           (HealthFrame.numeric_cols ++ HealthFrame.activity_cols df)%list.

(** Screen time above 3 hours against sleep quality. *)
Definition screen_time_pattern (df : HealthFrame.t) : list Pattern :=
  let high_screen_time r := Py.Qltb 3 (HealthRecord.screen_time_hours r) in
  let high := filter high_screen_time (HealthFrame.rows df) in
  let normal :=
    filter (fun r => negb (high_screen_time r)) (HealthFrame.rows df) in
  if Nat.ltb 5 (List.length high) then
    match Np.mean (map HealthRecord.sleep_quality high),
          Np.mean (map HealthRecord.sleep_quality normal) with
    | Fin avg_sleep_after_high_screen, Fin avg_sleep_after_normal_screen =>
        let effect :=
          Qred (avg_sleep_after_high_screen
                - avg_sleep_after_normal_screen) in
        if Py.Qltb (5 # 10) (Qabs effect) then
          [Threshold "screen_time_hours" 3 "sleep_quality" effect
             ("Sleep quality is " ++ PyStr.format_fixedQ (Qabs effect) 1
              ++ " points "
              ++ (if Py.Qltb avg_sleep_after_high_screen
                             avg_sleep_after_normal_screen
                  then "lower" else "higher")
              ++ " after days with >3 hours of screen time")]
        else []
    | _, _ => []
    end
  else [].

(** More than 8000 steps against mood. *)
Definition steps_pattern (df : HealthFrame.t) : list Pattern :=
  let high_steps r :=
    Py.Qltb 8000 (inject_Z (HealthRecord.steps_walked r)) in
  let mood r := inject_Z (HealthRecord.mood_level r) in
  let high := filter high_steps (HealthFrame.rows df) in
  let low := filter (fun r => negb (high_steps r)) (HealthFrame.rows df) in
  if Nat.ltb 5 (List.length high) then
    match Np.mean (map mood high), Np.mean (map mood low) with
    | Fin avg_mood_high_steps, Fin avg_mood_low_steps =>
        let effect := Qred (avg_mood_high_steps - avg_mood_low_steps) in
        if Py.Qltb (5 # 10) (Qabs effect) then
          [Threshold "steps_walked" 8000 "mood_level" effect
             ("Mood is " ++ PyStr.format_fixedQ (Qabs effect) 1
              ++ " points "
              ++ (if Py.Qltb avg_mood_low_steps avg_mood_high_steps
                  then "higher" else "lower")
              ++ " on days with >8000 steps")]
        else []
    | _, _ => []
    end
  else [].

(** [df[clusters == i]] *)
Definition cluster_days (df : HealthFrame.t) (clusters : list nat)
           (i : nat) : list HealthRecord.t :=
  map fst (filter (fun p => Nat.eqb (snd p) i)
                  (combine (HealthFrame.rows df) clusters)).

Definition quality_of (day_quality : Q) (good bad average : string)
  : string :=
  if Py.Qltb 7 day_quality then good
  else if Py.Qltb day_quality 5 then bad
  else average.

(** The body of the loop over the clusters. *)
Definition cluster_pattern (df : HealthFrame.t) (clusters : list nat)
           (i : nat) : list Pattern :=
  let days := cluster_days df clusters i in
  if Nat.leb 3 (List.length days) then
    let avg f := Np.column_mean (map f days) in
    let cluster_profile :=
      {| Profile.sleep_quality := avg HealthRecord.sleep_quality;
         Profile.screen_time := avg HealthRecord.screen_time_hours;
         Profile.steps :=
           avg (fun r => inject_Z (HealthRecord.steps_walked r));
         Profile.mood :=
           avg (fun r => inject_Z (HealthRecord.mood_level r));
         Profile.energy :=
           avg (fun r => inject_Z (HealthRecord.energy_level r)) |} in
    let day_quality :=
      Qred ((Profile.mood cluster_profile
             + Profile.energy cluster_profile) / 2) in
    [Cluster i (quality_of day_quality "good" "bad" "average")
       (List.length days) cluster_profile
       (quality_of day_quality "Good" "Bad" "Average"
        ++ " day pattern: Sleep quality "
        ++ PyStr.format_fixedQ (Profile.sleep_quality cluster_profile) 1
        ++ "/10, "
        ++ PyStr.format_fixedQ (Profile.screen_time cluster_profile) 1
        ++ "h screen time, "
        ++ PyStr.format_fixedQ (Profile.steps cluster_profile) 0
        ++ " steps, Mood "
        ++ PyStr.format_fixedQ (Profile.mood cluster_profile) 1
        ++ "/10, Energy "
        ++ PyStr.format_fixedQ (Profile.energy cluster_profile) 1
        ++ "/10")]
  else [].

(** The clustering step: it raises when the scaler or k-means does, in
    particular with fewer than five days, where [k] is 0. *)
Definition cluster_patterns (df : HealthFrame.t) : result (list Pattern) :=
  let X :=
    map (fun r => [HealthRecord.sleep_quality r;
                   HealthRecord.screen_time_hours r;
                   inject_Z (HealthRecord.steps_walked r);
                   inject_Z (HealthRecord.mood_level r);
                   inject_Z (HealthRecord.energy_level r)])
        (HealthFrame.rows df) in
  scaler <- Np.fit X ;;
  let X_scaled := Np.transform scaler X in
  let k := Nat.min 5 (HealthFrame.len df / 5) in
  kmeans <- Np.KMeans k 42 None X_scaled ;;
  let clusters := Np.labels_ kmeans in
  Ok (flat_map (cluster_pattern df clusters) (seq 0 k)).

(** The body of the [try] block: the patterns gathered so far are lost
    when a later step raises. A frame without rows has no column, and
    the first column access raises. *)
Definition patterns_or_raise (df : HealthFrame.t) : result (list Pattern) :=
  match HealthFrame.rows df with
  | [] => Raise KeyError
  | _ =>
      let patterns :=
        (correlation_patterns df ++ screen_time_pattern df
         ++ steps_pattern df)%list in
      clusters <- cluster_patterns df ;;
      Ok (patterns ++ clusters)%list
  end.

Definition identify_patterns (df : HealthFrame.t) : list Pattern :=
  match patterns_or_raise df with
  | Ok patterns => patterns
  | Raise _ => []
  end.

(** *** [identify_stressors] *)

Definition correlation_stressor (pattern : Pattern)
  : list PatternStressor.t :=
  match pattern with
  | Correlation factor1 factor2 strength _ =>
      if (Py.Qltb strength (- (3 # 10))
          && (PyStr.contains "mood" factor2
              || PyStr.contains "energy" factor2))%bool
      then
        [{| PatternStressor.type := "correlation_stressor";
            PatternStressor.factor := Some factor1;
            PatternStressor.impact_on :=
              Some (PyStr.replace factor2 "_next_day" EmptyString);
            PatternStressor.strength := Some (Qabs strength);
            PatternStressor.frequency := None;
            PatternStressor.avg_value := None;
            PatternStressor.avg_hours := None;
            PatternStressor.description :=
              PyStr.replace factor1 "_" " "
              ++ " appears to negatively impact "
              ++ PyStr.replace
                   (PyStr.replace factor2 "_next_day" EmptyString)
                   "_" " " |}]
      else []
  | _ => []
  end.

Definition factor_stressor (factor : string) (frequency : nat)
           (avg_value : Q) (description : string) : PatternStressor.t :=
  {| PatternStressor.type := "factor_stressor";
     PatternStressor.factor := Some factor;
     PatternStressor.impact_on := None;
     PatternStressor.strength := None;
     PatternStressor.frequency := Some (Z.of_nat frequency);
     PatternStressor.avg_value := Some avg_value;
     PatternStressor.avg_hours := None;
     PatternStressor.description := description |}.

Definition bad_day_stressors (pattern : Pattern) : list PatternStressor.t :=
  match pattern with
  | Cluster _ day_quality frequency profile _ =>
      if String.eqb day_quality "bad" then
        ((if Py.Qltb (Profile.sleep_quality profile) 6 then
            [factor_stressor "poor_sleep" frequency
               (Profile.sleep_quality profile)
               ("Poor sleep quality (avg. "
                ++ PyStr.format_fixedQ (Profile.sleep_quality profile) 1
                ++ "/10) is associated with bad days")]
          else [])
         ++ (if Py.Qltb 4 (Profile.screen_time profile) then
               [factor_stressor "excessive_screen_time" frequency
                  (Profile.screen_time profile)
                  ("Excessive screen time (avg. "
                   ++ PyStr.format_fixedQ (Profile.screen_time profile) 1
                   ++ " hours) is associated with bad days")]
             else [])
         ++ (if Py.Qltb (Profile.steps profile) 5000 then
               [factor_stressor "sedentary_behavior" frequency
                  (Profile.steps profile)
                  ("Low physical activity (avg. "
                   ++ PyStr.format_fixedQ (Profile.steps profile) 0
                   ++ " steps) is associated with bad days")]
             else []))%list
      else []
  | _ => []
  end.

Definition negative_keywords : list string :=
  ["stress"; "anxious"; "tired"; "exhausted"; "overwhelmed"; "frustrated";
   "angry"; "sad"; "depressed"; "worry"; "workload"].

(** [keyword_counts[keyword] += 1] on a [Counter]: a new key goes to the
    end. *)
Fixpoint increment (keyword : string) (counts : list (string * Z))
  : list (string * Z) :=
  match counts with
  | [] => [(keyword, 1%Z)]
  | (k, n) :: counts' =>
      if String.eqb k keyword then (k, (n + 1)%Z) :: counts'
      else (k, n) :: increment keyword counts'
  end.

Definition count_journal (counts : list (string * Z)) (journal : string)
  : list (string * Z) :=
  fold_left (fun counts keyword =>
               if PyStr.contains keyword (PyStr.lower journal)
               then increment keyword counts else counts)
            negative_keywords counts.

Definition keyword_counts (df : HealthFrame.t) : list (string * Z) :=
  fold_left count_journal
            (map HealthRecord.emotional_journal (HealthFrame.rows df)) [].

Definition emotional_stressors (df : HealthFrame.t)
  : list PatternStressor.t :=
  flat_map
    (fun kc : string * Z =>
       let (keyword, count) := kc in
       if Qle_bool (Qmax 2 (inject_Z (Z.of_nat (HealthFrame.len df))
                            * (1 # 10)))
                   (inject_Z count)
       then
         [{| PatternStressor.type := "emotional_stressor";
             PatternStressor.factor := Some keyword;
             PatternStressor.impact_on := None;
             PatternStressor.strength := None;
             PatternStressor.frequency := Some count;
             PatternStressor.avg_value := None;
             PatternStressor.avg_hours := None;
             PatternStressor.description :=
               "'" ++ keyword ++ "' mentioned in " ++ PyStr.of_int count
               ++ " journal entries" |}]
       else [])
    (keyword_counts df).

Definition productivity_stressors (df : HealthFrame.t)
  : list PatternStressor.t :=
  let unproductive :=
    filter (fun r => Py.Qltb (HealthRecord.screen_time_productivity r)
                             (5 # 10))
           (HealthFrame.rows df) in
  if Py.Qltb (Qmax 3 (inject_Z (Z.of_nat (HealthFrame.len df)) * (2 # 10)))
             (inject_Z (Z.of_nat (List.length unproductive)))
  then
    let avg_unproductive_screen_time :=
      Np.column_mean (map HealthRecord.screen_time_hours unproductive) in
    [{| PatternStressor.type := "productivity_stressor";
        PatternStressor.factor := Some "unproductive_screen_time";
        PatternStressor.impact_on := None;
        PatternStressor.strength := None;
        PatternStressor.frequency := None;
        PatternStressor.avg_value := None;
        PatternStressor.avg_hours := Some avg_unproductive_screen_time;
        PatternStressor.description :=
          "Unproductive screen time averaging "
          ++ PyStr.format_fixedQ avg_unproductive_screen_time 1
          ++ " hours on low-productivity days" |}]
  else [].

(** [s['factor']]; every stressor built by [identify_stressors] has
    one. *)
Definition factor_of (s : PatternStressor.t) : string :=
  match PatternStressor.factor s with
  | Some factor => factor
  | None => EmptyString
  end.

(** The key of the [max]: the strength when there is one, otherwise the
    frequency, otherwise 0. *)
Definition merge_key (s : PatternStressor.t) : Q :=
  match PatternStressor.strength s with
  | Some strength => strength
  | None =>
      match PatternStressor.frequency s with
      | Some frequency => inject_Z frequency
      | None => 0
      end
  end.

(** [max(similar, key=...)]: the first of the greatest. *)
Definition best_match (first : PatternStressor.t)
           (others : list PatternStressor.t) : PatternStressor.t :=
  fold_left (fun best s =>
               if Py.Qltb (merge_key best) (merge_key s) then s else best)
            others first.

(** The merge loop: [todo] is what is left of [stressors],
    [added_factors] the factors already dealt with. *)
Fixpoint merge (stressors todo : list PatternStressor.t)
         (added_factors : list string) : list PatternStressor.t :=
  match todo with
  | [] => []
  | stressor :: rest =>
      if existsb (String.eqb (factor_of stressor)) added_factors
      then merge stressors rest added_factors
      else
        let similar :=
          filter (fun s => String.eqb (factor_of s) (factor_of stressor))
                 stressors in
        let merged :=
          match similar with
          | first :: ((_ :: _) as others) => best_match first others
          | _ => stressor
          end in
        merged :: merge stressors rest (factor_of stressor :: added_factors)
  end.

(** [df['emotional_journal']] raises [KeyError] on a frame without
    rows. *)
Definition identify_stressors (df : HealthFrame.t) (patterns : list Pattern)
  : result (list PatternStressor.t) :=
  match HealthFrame.rows df with
  | [] => Raise KeyError
  | _ =>
      let stressors :=
        (flat_map correlation_stressor patterns
         ++ flat_map bad_day_stressors patterns
         ++ emotional_stressors df
         ++ productivity_stressors df)%list in
      Ok (merge stressors stressors [])
  end.

End Patterns.

(** *** [generate_recommendations] *)

Definition poor_sleep_advice (factor : string) : list Advice.t :=
  [{| Advice.stressor := factor;
      Advice.recommendation :=
        "Establish a consistent sleep schedule, going to bed and waking up at the same time each day";
      Advice.evidence :=
        "Research shows consistent sleep schedules help regulate circadian rhythm";
      Advice.impact := "Could improve sleep quality by 15-20%" |};
   {| Advice.stressor := factor;
      Advice.recommendation :=
        "Create a relaxing pre-sleep routine (reading, light stretching, no screens 1 hour before bed)";
      Advice.evidence :=
        "Blue light from screens can suppress melatonin production";
      Advice.impact := "Can reduce sleep onset time by 15-30 minutes" |}].

Definition screen_time_advice (factor : string) : list Advice.t :=
  [{| Advice.stressor := factor;
      Advice.recommendation :=
        "Schedule 2-hour blocks of focused work with 15-minute screen breaks";
      Advice.evidence :=
        "Regular breaks improve overall productivity and reduce eye strain";
      Advice.impact :=
        "Can improve productivity by 20% while reducing overall screen time" |};
   {| Advice.stressor := factor;
      Advice.recommendation :=
        "Use app blockers to limit social media use to specific times of day";
      Advice.evidence :=
        "Context switching between work and social media reduces cognitive performance";
      Advice.impact := "Can reduce unproductive screen time by 40%" |}].

Definition sedentary_advice (factor : string) : list Advice.t :=
  [{| Advice.stressor := factor;
      Advice.recommendation :=
        "Set a timer to stand up and walk for 5 minutes every hour";
      Advice.evidence :=
        "Even short activity breaks can improve metabolism and energy levels";
      Advice.impact := "Can add 1000-2000 steps to your daily count" |};
   {| Advice.stressor := factor;
      Advice.recommendation :=
        "Schedule 20-30 minute walks after lunch and dinner";
      Advice.evidence :=
        "Post-meal walks help with digestion and blood sugar regulation";
      Advice.impact :=
        "Can improve mood scores by 1-2 points on walking days" |}].

Definition unproductive_advice (factor : string) : list Advice.t :=
  [{| Advice.stressor := factor;
      Advice.recommendation :=
        "Use the Pomodoro technique: 25 minutes of focused work followed by a 5-minute break";
      Advice.evidence :=
        "Structured work intervals improve focus and reduce procrastination";
      Advice.impact := "Can increase productive screen time by 30%" |}].

Definition mindfulness_advice (factor : string) : list Advice.t :=
  [{| Advice.stressor := factor;
      Advice.recommendation :=
        "Practice 10 minutes of mindfulness meditation daily";
      Advice.evidence :=
        "Regular meditation reduces cortisol levels and improves stress resilience";
      Advice.impact :=
        "Can reduce stress levels by 25% within 8 weeks of consistent practice" |};
   {| Advice.stressor := factor;
      Advice.recommendation :=
        "Schedule worry time: 15 minutes to write down all concerns, then set them aside";
      Advice.evidence :=
        "Containing worry to a specific time reduces rumination throughout the day";
      Advice.impact :=
        "Can improve focus and reduce anxiety-related thought patterns" |}].

Definition general_recommendations : list Advice.t :=
  [{| Advice.stressor := "general_wellbeing";
      Advice.recommendation :=
        "Drink water immediately upon waking and aim for 2-3 liters throughout the day";
      Advice.evidence :=
        "Proper hydration improves cognition, energy, and metabolic function";
      Advice.impact := "Can increase energy levels by 10-15%" |};
   {| Advice.stressor := "general_wellbeing";
      Advice.recommendation :=
        "Spend 15 minutes outside in natural light within 1 hour of waking";
      Advice.evidence :=
        "Morning light exposure regulates circadian rhythm and boosts vitamin D";
      Advice.impact :=
        "Can improve mood and sleep quality by regulating melatonin production" |}].

(** The body of the loop over the stressors. *)
Definition advise (stressor : PatternStressor.t) : list Advice.t :=
  let factor :=
    match PatternStressor.factor stressor with
    | Some f => f
    | None => EmptyString
    end in
  if PyStr.contains "poor_sleep" factor then poor_sleep_advice factor
  else if PyStr.contains "screen_time" factor then screen_time_advice factor
  else if (PyStr.contains "sedentary" factor
           || String.eqb factor "steps_walked")%bool
  then sedentary_advice factor
  else if PyStr.contains "unproductive_screen_time" factor
  then unproductive_advice factor
  else if existsb (fun k => PyStr.contains k factor)
                  ["stress"; "anxious"; "overwhelm"; "tired"; "exhausted"]
  then mindfulness_advice factor
  else [].

Definition is_general (r : Advice.t) : bool :=
  String.eqb (Advice.stressor r) "general_wellbeing".

Definition generate_recommendations (stressors : list PatternStressor.t)
  : list Advice.t :=
  let recommendations := flat_map advise stressors in
  let recommendations :=
    if Nat.ltb (List.length recommendations) 5
    then (recommendations ++ general_recommendations)%list
    else recommendations in
  let specific_recommendations :=
    filter (fun r => negb (is_general r)) recommendations in
  let general_recommendations := filter is_general recommendations in
  let prioritized_recommendations := firstn 4 specific_recommendations in
  if Nat.ltb (List.length prioritized_recommendations) 5
  then (prioritized_recommendations
        ++ firstn (5 - List.length prioritized_recommendations)
                  general_recommendations)%list
  else prioritized_recommendations.


(** *** [start_analysis]

    [mock_data] stands for the call of [generate_mock_health_data], which
    draws random numbers: the days it generated, or the exception it
    raised; [today] is [datetime.now().strftime("%Y-%m-%d")]. *)
Definition start_analysis {L : Libraries}
           (mock_data : result (list HealthRecord.t)) (today : string)
           (user_id : string) : AnalysisResult :=
  let outcome :=
    (health_data <- mock_data ;;
     df <- HealthFrame.of_records health_data ;;
     let patterns := identify_patterns df in
     stressors <- identify_stressors df patterns ;;
     let recommendations := generate_recommendations stressors in
     Ok (Analysis user_id today patterns stressors recommendations))%py in
  match outcome with
  | Ok result => result
  | Raise e =>
      AnalysisError user_id
                    ("Error during analysis: " ++ str_exn e)%string
                    today
  end.

End ExampleAgents.

(** ** An executable instance of the library routines

    Used to run the pipeline on concrete inputs. The square root is
    correct to twelve decimals and exact on squares; the k-means solver is
    Lloyd's iteration started from the first distinct rows (it ignores
    the seed, so it is one of the behaviours the parameter stands for);
    the date parser accepts strings that start with [YYYY-MM-DD]. *)

Module Reference.

Local Open Scope Q_scope.

Definition sqrt (q : Q) : Q :=
  let n := Qnum q in
  let d := Zpos (Qden q) in
  if (n <=? 0)%Z then 0
  else Qred (Qmake (Z.sqrt (n * d * 10 ^ 24)) 1
             / inject_Z (d * 10 ^ 12)).

Definition dist2 (a b : list Q) : Q :=
  Np.sum (map (fun p => (fst p - snd p) * (fst p - snd p)) (combine a b)).

(** The index of the centre nearest to [x] (the first one on ties);
    [best] is the best index so far, [i] the index of the head. *)
Fixpoint nearest_from (x : list Q) (centers : list (list Q))
         (i best : nat) (best_d : Q) : nat :=
  match centers with
  | [] => best
  | c :: rest =>
      if Py.Qltb (dist2 x c) best_d
      then nearest_from x rest (S i) i (dist2 x c)
      else nearest_from x rest (S i) best best_d
  end.

Definition nearest (centers : list (list Q)) (x : list Q) : nat :=
  match centers with
  | [] => O
  | c :: rest => nearest_from x rest 1 0 (dist2 x c)
  end.

Definition row_eqb (a b : list Q) : bool :=
  (Nat.eqb (List.length a) (List.length b)
   && forallb (fun p => Qeq_bool (fst p) (snd p)) (combine a b))%bool.

Fixpoint distinct_rows (X : list (list Q)) (seen : list (list Q))
  : list (list Q) :=
  match X with
  | [] => []
  | x :: rest =>
      if existsb (row_eqb x) seen then distinct_rows rest seen
      else x :: distinct_rows rest (x :: seen)
  end.

Definition centroid (rows : list (list Q)) (width : nat) : list Q :=
  map (fun j => Qred (Np.sum (Np.column rows j) / Np.len (Np.column rows j)))
      (seq 0 width).

Definition members (X : list (list Q)) (labels : list nat) (k : nat)
  : list (list Q) :=
  map fst (filter (fun p => Nat.eqb (snd p) k) (combine X labels)).

Definition update (X : list (list Q)) (centers : list (list Q))
  : list (list Q) :=
  let labels := map (nearest centers) X in
  map (fun p =>
         match members X labels (fst p) with
         | [] => snd p
         | rows => centroid rows (List.length (snd p))
         end)
      (combine (seq 0 (List.length centers)) centers).

Fixpoint lloyd (fuel : nat) (X : list (list Q)) (centers : list (list Q))
  : list (list Q) :=
  match fuel with
  | O => centers
  | S fuel' => lloyd fuel' X (update X centers)
  end.

Definition kmeans (n_clusters : nat) (random_state : Z)
           (n_init : option nat) (X : list (list Q))
  : result (list (list Q) * list nat) :=
  let d := distinct_rows X [] in
  let init := firstn n_clusters (d ++ repeat (hd [] X) n_clusters) in
  let centers := lloyd 20 X init in
  Ok (centers, map (nearest centers) X).

Definition digit (c : ascii) : option Z :=
  let n := nat_of_ascii c in
  if (Nat.leb 48 n && Nat.leb n 57)%bool then Some (Z.of_nat (n - 48))
  else None.

Fixpoint digits (s : string) (n : nat) (acc : Z) : option (Z * string) :=
  match n with
  | O => Some (acc, s)
  | S n' =>
      match s with
      | String c s' =>
          match digit c with
          | Some v => digits s' n' (acc * 10 + v)%Z
          | None => None
          end
      | EmptyString => None
      end
  end.

Definition dash (s : string) : option string :=
  match s with
  | String "-" s' => Some s'
  | _ => None
  end.

Definition parse_date (s : string) : option Z :=
  match digits s 4 0%Z with
  | Some (y, s1) =>
      match dash s1 with
      | Some s2 =>
          match digits s2 2 0%Z with
          | Some (m, s3) =>
              match dash s3 with
              | Some s4 =>
                  match digits s4 2 0%Z with
                  | Some (dd, _) => Some (y * 10000 + m * 100 + dd)%Z
                  | None => None
                  end
              | None => None
              end
          | None => None
          end
      | None => None
      end
  | None => None
  end.

(** The texts of CPython, pandas and scikit-learn for the exceptions met
    here. *)
Definition str (e : exn) : string :=
  match e with
  | ValueError => "n_samples should be >= n_clusters"
  | IndexError => "list index out of range"
  | KeyError => "'mood_level'"
  | ParserError => "Unknown datetime string format"
  end.

Definition libs : Libraries :=
  {| np_sqrt := sqrt;
     kmeans_solver := kmeans;
     to_datetime := parse_date;
     str_exn := str |}.

Local Open Scope string_scope.

(** The three entries served by the [/sample] route of [app.py] (the
    dates there are relative to the day of the call). *)
Definition sample_entries : list WellbeingEntry.t :=
  [{| WellbeingEntry.date := "2025-03-03T00:00:00";
      WellbeingEntry.mood := 6;
      WellbeingEntry.energy := 5;
      WellbeingEntry.steps := 7500;
      WellbeingEntry.screenTimeMinutes := 240;
      WellbeingEntry.sleepHours := 65 # 10;
      WellbeingEntry.heartRate := 72;
      WellbeingEntry.caloriesBurned := 1800;
      WellbeingEntry.waterIntake := 1500;
      WellbeingEntry.dailyJournal :=
        "Had a busy day at work with multiple deadlines. Felt a bit stressed but managed to complete most tasks.";
      WellbeingEntry.emotionalState :=
        "Tired but satisfied with progress. Worried about tomorrow's presentation." |};
   {| WellbeingEntry.date := "2025-03-02T00:00:00";
      WellbeingEntry.mood := 7;
      WellbeingEntry.energy := 6;
      WellbeingEntry.steps := 9000;
      WellbeingEntry.screenTimeMinutes := 180;
      WellbeingEntry.sleepHours := 72 # 10;
      WellbeingEntry.heartRate := 68;
      WellbeingEntry.caloriesBurned := 2100;
      WellbeingEntry.waterIntake := 2000;
      WellbeingEntry.dailyJournal :=
        "Productive day with good team meeting. Went for a walk during lunch break which felt refreshing.";
      WellbeingEntry.emotionalState :=
        "Generally positive, though slightly anxious about upcoming deadlines." |};
   {| WellbeingEntry.date := "2025-03-01T00:00:00";
      WellbeingEntry.mood := 4;
      WellbeingEntry.energy := 3;
      WellbeingEntry.steps := 3000;
      WellbeingEntry.screenTimeMinutes := 320;
      WellbeingEntry.sleepHours := 55 # 10;
      WellbeingEntry.heartRate := 75;
      WellbeingEntry.caloriesBurned := 1600;
      WellbeingEntry.waterIntake := 1200;
      WellbeingEntry.dailyJournal :=
        "Difficult day with technology issues. Spent too much time troubleshooting and fell behind on work.";
      WellbeingEntry.emotionalState :=
        "Frustrated and tired. Didn't sleep well last night which made everything harder." |}].

(** A day on which no threshold is crossed. *)
Definition healthy_day : WellbeingEntry.t :=
  {| WellbeingEntry.date := "2025-03-04T00:00:00";
     WellbeingEntry.mood := 8;
     WellbeingEntry.energy := 7;
     WellbeingEntry.steps := 9500;
     WellbeingEntry.screenTimeMinutes := 120;
     WellbeingEntry.sleepHours := 8;
     WellbeingEntry.heartRate := 64;
     WellbeingEntry.caloriesBurned := 2200;
     WellbeingEntry.waterIntake := 2000;
     WellbeingEntry.dailyJournal := "Long walk, early night.";
     WellbeingEntry.emotionalState := "Calm." |}.

(** Three distinct days, two of them with the same step count. *)
Definition two_days_same_steps : list WellbeingEntry.t :=
  map (fun p : Z * Z * Q =>
         {| WellbeingEntry.date := "2025-03-01T00:00:00";
            WellbeingEntry.mood := 6;
            WellbeingEntry.energy := 5;
            WellbeingEntry.steps := fst (fst p);
            WellbeingEntry.screenTimeMinutes := 120;
            WellbeingEntry.sleepHours := snd p;
            WellbeingEntry.heartRate := snd (fst p);
            WellbeingEntry.caloriesBurned := 1800;
            WellbeingEntry.waterIntake := 1500;
            WellbeingEntry.dailyJournal := "An ordinary day.";
            WellbeingEntry.emotionalState := "Fine." |})
      [(1000%Z, 60%Z, 6); (1000%Z, 90%Z, 8); (5000%Z, 70%Z, 7)].




Definition today : string := "2025-03-05".

(** A stressor of the pattern-based pipeline. *)
Definition poor_sleep : PatternStressor.t :=
  ExampleAgents.factor_stressor
    "poor_sleep" 4 (42 # 10)
    "Poor sleep quality (avg. 4.2/10) is associated with bad days".

Definition system : FetchAgentSystem.t :=
  {| FetchAgentSystem.session_id := "0b0f3c1e-5d1c-4f0e-9d57-2f1f3a6c9e10" |}.

Definition now : string := "2025-03-03T09:30:00.000000".

End Reference.

(** ** Vocabulary of the statements *)

Local Open Scope string_scope.
Local Open Scope list_scope.

(** The names of a stressor list, in order. *)
Definition names (stressors : list Stressor.t) : list string :=
  map Stressor.name stressors.

(** Every date of the request is accepted by [pd.to_datetime]. *)
Definition dates_parse {L : Libraries} (entries : list WellbeingEntry.t)
  : Prop :=
  Forall (fun e => to_datetime (WellbeingEntry.date e) <> None) entries.


Definition metrics (fs : list Factor.t) : list string :=
  map Factor.metric fs.

(** The invariant of the correlation loop: the names are distinct, and a
    correlation stressor already in the list has used up its metric. *)
Definition loop_invariant (stressors : list Stressor.t)
           (remaining : list Factor.t) : Prop :=
  NoDup (names stressors)
  /\ (In "Screen Time Impact" (names stressors) ->
      ~ In "screenTimeMinutes" (metrics remaining))
  /\ (In "Sleep Quality Impact" (names stressors) ->
      ~ In "sleepHours" (metrics remaining)).

(** [r["target"] == "General Wellbeing"] *)
Definition is_general_wellbeing (r : Recommendation.t) : bool :=
  String.eqb (Recommendation.target r) "General Wellbeing".

(** The string holds nothing but spaces. *)
Fixpoint all_spaces (s : string) : bool :=
  match s with
  | EmptyString => true
  | String c s' => (Ascii.eqb c " " && all_spaces s')%bool
  end.

(** The keyword starts with a character other than a space. *)
Definition starts_nonblank (keyword : string) : bool :=
  match keyword with
  | EmptyString => false
  | String c _ => negb (Ascii.eqb c " ")
  end.

(** The ratio as the specification words it: [positive / (positive +
    negative)] when there is a mention, 0.5 otherwise. It is compared
    below with what [sentiment_of_counts] computes. *)
Definition positive_ratio_of (positive negative : Z) : Q :=
  if (0 <? positive + negative)%Z
  then (inject_Z positive / inject_Z (positive + negative))%Q
  else (1 # 2)%Q.

(** Order of two (index, key) pairs by key. *)
Definition key_le (a b : nat * Q) : Prop := (snd a <= snd b)%Q.

(** The three fields of an entry the clustering reads. *)
Definition features_of (e : WellbeingEntry.t) : Z * Z * Q :=
  (WellbeingEntry.steps e, WellbeingEntry.heartRate e,
   WellbeingEntry.sleepHours e).

(** * Properties *)

(** ** Arithmetic of the Python builtins *)

Lemma Qltb_lt (x y : Q) : Py.Qltb x y = true <-> (x < y)%Q.
Proof.
  unfold Py.Qltb. rewrite negb_true_iff.
  split; intro H.
  - apply Qnot_le_lt. intro Hle. apply Qle_bool_iff in Hle. congruence.
  - destruct (Qle_bool y x) eqn:E; [|reflexivity].
    apply Qle_bool_iff in E. exfalso. exact (Qlt_not_le _ _ H E).
Qed.

Lemma Qltb_ge (x y : Q) : Py.Qltb x y = false <-> (y <= x)%Q.
Proof.
  unfold Py.Qltb. rewrite negb_false_iff. apply Qle_bool_iff.
Qed.


Lemma int_monotone (x y : Q) : (x <= y)%Q -> Py.int x <= Py.int y.
Proof.
  intros Hxy. unfold Py.int. destruct x as [a b], y as [c d]. simpl.
  unfold Qle in Hxy. simpl in Hxy.
  destruct (Z.le_gt_cases 0 a) as [Ha | Ha].
  - assert (0 <= c) by nia.
    rewrite !Z.quot_div_nonneg by lia.
    apply Z.div_le_lower_bound; [lia|].
    assert (Hm : Z.pos b * (a / Z.pos b) <= a)
      by (apply Z.mul_div_le; lia).
    nia.
  - destruct (Z.le_gt_cases 0 c) as [Hc | Hc].
    + assert (a ÷ Z.pos b <= 0) by (apply Z.quot_le_upper_bound; lia).
      assert (0 <= c ÷ Z.pos d) by (apply Z.quot_pos; lia).
      lia.
    + assert (Ea : a ÷ Z.pos b = - ((- a) / Z.pos b)).
      { rewrite <- Z.quot_div_nonneg by lia. rewrite Z.quot_opp_l by lia. lia. }
      assert (Ec : c ÷ Z.pos d = - ((- c) / Z.pos d)).
      { rewrite <- Z.quot_div_nonneg by lia. rewrite Z.quot_opp_l by lia. lia. }
      rewrite Ea, Ec. apply -> Z.opp_le_mono.
      apply Z.div_le_lower_bound; [lia|].
      assert (Hm : Z.pos d * ((- c) / Z.pos d) <= - c)
        by (apply Z.mul_div_le; lia).
      nia.
Qed.

(** ** The stressor rules *)

Import FetchAgentSystem.

Local Open Scope string_scope.
Local Open Scope list_scope.

Lemma any_named_In (n : string) (stressors : list Stressor.t) :
  any_named n stressors = true <-> In n (names stressors).
Proof.
  unfold any_named, names. rewrite existsb_exists, in_map_iff.
  split.
  - intros [s [Hin Heq]]. apply String.eqb_eq in Heq. eauto.
  - intros [s [Heq Hin]]. exists s. split; [assumption|].
    now apply String.eqb_eq.
Qed.

(** Each threshold rule emits nothing or one stressor of its own name. *)
Lemma sleep_deficit_rule_names (df : DataFrame.t) :
  names (sleep_deficit_rule df) = []
  \/ names (sleep_deficit_rule df) = ["Sleep Deficit"].
Proof.
  unfold sleep_deficit_rule.
  destruct (DataFrame.has df "sleepHours"); [|now left].
  destruct (Np.mean _) as [|avg]; [now left|].
  destruct (Py.Qltb avg 7); [now right | now left].
Qed.

Lemma digital_overload_rule_names (df : DataFrame.t) :
  names (digital_overload_rule df) = []
  \/ names (digital_overload_rule df) = ["Digital Overload"].
Proof.
  unfold digital_overload_rule.
  destruct (DataFrame.has df "screenTimeMinutes"); [|now left].
  destruct (Np.mean _) as [|avg]; [now left|].
  destruct (Py.Qltb 180 avg); [now right | now left].
Qed.

Lemma low_mood_rule_names (df : DataFrame.t) :
  names (low_mood_rule df) = []
  \/ names (low_mood_rule df) = ["Low Mood Patterns"].
Proof.
  unfold low_mood_rule.
  destruct (DataFrame.has df "mood"); [|now left].
  destruct (Np.mean _) as [|avg]; [now left|].
  destruct (Py.Qltb avg 5); [now right | now left].
Qed.

Lemma low_activity_rule_names (df : DataFrame.t) :
  names (low_activity_rule df) = []
  \/ names (low_activity_rule df) = ["Low Physical Activity"].
Proof.
  unfold low_activity_rule.
  destruct (DataFrame.has df "steps"); [|now left].
  destruct (Np.mean _) as [|avg]; [now left|].
  destruct (Py.Qltb avg 5000); [now right | now left].
Qed.

Lemma names_threshold_stressors (df : DataFrame.t) :
  names (threshold_stressors df)
  = names (sleep_deficit_rule df) ++ names (digital_overload_rule df)
    ++ names (low_mood_rule df) ++ names (low_activity_rule df).
Proof.
  unfold threshold_stressors, names. now rewrite !map_app.
Qed.

Ltac threshold_cases df :=
  rewrite names_threshold_stressors;
  destruct (sleep_deficit_rule_names df) as [-> | ->];
  destruct (digital_overload_rule_names df) as [-> | ->];
  destruct (low_mood_rule_names df) as [-> | ->];
  destruct (low_activity_rule_names df) as [-> | ->];
  cbn [app].

Ltac nodup_strings :=
  repeat (apply NoDup_cons; [cbn [In]; intuition discriminate|]);
  apply NoDup_nil.

Lemma threshold_stressors_NoDup (df : DataFrame.t) :
  NoDup (names (threshold_stressors df)).
Proof.
  threshold_cases df; nodup_strings.
Qed.

Lemma threshold_stressors_no_impact (df : DataFrame.t) :
  ~ In "Screen Time Impact" (names (threshold_stressors df))
  /\ ~ In "Sleep Quality Impact" (names (threshold_stressors df)).
Proof.
  threshold_cases df; cbn [In]; intuition discriminate.
Qed.

(** The Sleep Deficit entry of the threshold rules is the one of the
    sleep rule. *)
Lemma threshold_sleep_deficit (df : DataFrame.t) (s : Stressor.t) :
  In s (threshold_stressors df) -> Stressor.name s = "Sleep Deficit" ->
  In s (sleep_deficit_rule df).
Proof.
  unfold threshold_stressors. rewrite !in_app_iff.
  intros [H | [H | [H | H]]] Hn; [assumption | exfalso ..].
  - assert (Hin : In (Stressor.name s) (names (digital_overload_rule df)))
      by (now apply in_map).
    destruct (digital_overload_rule_names df) as [E | E];
      rewrite E, Hn in Hin; cbn in Hin; intuition discriminate.
  - assert (Hin : In (Stressor.name s) (names (low_mood_rule df)))
      by (now apply in_map).
    destruct (low_mood_rule_names df) as [E | E];
      rewrite E, Hn in Hin; cbn in Hin; intuition discriminate.
  - assert (Hin : In (Stressor.name s) (names (low_activity_rule df)))
      by (now apply in_map).
    destruct (low_activity_rule_names df) as [E | E];
      rewrite E, Hn in Hin; cbn in Hin; intuition discriminate.
Qed.

(** What one turn of the correlation loop can do to the list. *)
Lemma correlation_rule_cases (stressors : list Stressor.t) (f : Factor.t) :
  correlation_rule stressors f = stressors
  \/ (exists s, correlation_rule stressors f = stressors ++ [s]
                /\ Stressor.name s = "Screen Time Impact"
                /\ Factor.metric f = "screenTimeMinutes"
                /\ ~ In "Digital Overload" (names stressors))
  \/ (exists s, correlation_rule stressors f = stressors ++ [s]
                /\ Stressor.name s = "Sleep Quality Impact"
                /\ Factor.metric f = "sleepHours"
                /\ ~ In "Sleep Deficit" (names stressors)).
Proof.
  unfold correlation_rule.
  destruct (_ && _)%bool; [|now left].
  destruct (String.eqb (Factor.metric f) "screenTimeMinutes") eqn:Em;
    cbn [andb].
  - destruct (any_named "Digital Overload" stressors) eqn:Ea; cbn [negb].
    + apply String.eqb_eq in Em. rewrite Em. cbn. now left.
    + right; left. eexists. split; [reflexivity|].
      cbn. split; [reflexivity|]. split; [now apply String.eqb_eq|].
      intro Hin. apply any_named_In in Hin. congruence.
  - destruct (String.eqb (Factor.metric f) "sleepHours") eqn:Es;
      cbn [andb]; [|now left].
    destruct (any_named "Sleep Deficit" stressors) eqn:Ea; cbn [negb];
      [now left|].
    right; right. eexists. split; [reflexivity|].
    cbn. split; [reflexivity|]. split; [now apply String.eqb_eq|].
    intro Hin. apply any_named_In in Hin. congruence.
Qed.

(** The correlation loop only appends, and only the two correlation
    stressors. *)
Lemma correlation_loop_In (fs : list Factor.t) (stressors : list Stressor.t)
      (s : Stressor.t) :
  In s (fold_left correlation_rule fs stressors) ->
  In s stressors
  \/ Stressor.name s = "Screen Time Impact"
  \/ Stressor.name s = "Sleep Quality Impact".
Proof.
  revert stressors. induction fs as [|f fs IH]; intros stressors Hin.
  - now left.
  - cbn in Hin. apply IH in Hin.
    destruct Hin as [Hin | Hin]; [|now right].
    destruct (correlation_rule_cases stressors f)
      as [E | [[s' [E [Hn _]]] | [s' [E [Hn _]]]]]; rewrite E in Hin.
    + now left.
    + apply in_app_iff in Hin. destruct Hin as [Hin | [<- | []]];
        [now left | right; now left].
    + apply in_app_iff in Hin. destruct Hin as [Hin | [<- | []]];
        [now left | right; now right].
Qed.

Lemma correlation_loop_incl (fs : list Factor.t)
      (stressors : list Stressor.t) (s : Stressor.t) :
  In s stressors -> In s (fold_left correlation_rule fs stressors).
Proof.
  revert stressors. induction fs as [|f fs IH]; intros stressors Hin.
  - assumption.
  - cbn. apply IH.
    destruct (correlation_rule_cases stressors f)
      as [E | [[s' [E _]] | [s' [E _]]]]; rewrite E;
      [assumption | apply in_app_iff; now left ..].
Qed.

Lemma sleep_deficit_rule_inv (df : DataFrame.t) (s : Stressor.t) :
  In s (sleep_deficit_rule df) ->
  exists m,
    Np.mean (DataFrame.col Row.sleepHours df) = Fin m
    /\ Py.Qltb m 7 = true
    /\ Stressor.name s = "Sleep Deficit"
    /\ Stressor.level s = Z.min 10 (Py.int (10 - m)).
Proof.
  unfold sleep_deficit_rule.
  destruct (DataFrame.has df "sleepHours"); [|intros []].
  destruct (Np.mean _) as [|m]; [intros []|].
  destruct (Py.Qltb m 7) eqn:E; [|intros []].
  intros [<- | []]. exists m.
  split; [reflexivity|]. split; [exact E|]. split; reflexivity.
Qed.

Lemma sleep_deficit_rule_fires (df : DataFrame.t) (m : Q) :
  DataFrame.has df "sleepHours" = true ->
  Np.mean (DataFrame.col Row.sleepHours df) = Fin m ->
  Py.Qltb m 7 = true ->
  exists s, sleep_deficit_rule df = [s]
            /\ Stressor.name s = "Sleep Deficit"
            /\ Stressor.level s = Z.min 10 (Py.int (10 - m)).
Proof.
  intros Hc Hm Hlt. unfold sleep_deficit_rule. rewrite Hc, Hm, Hlt.
  eexists. split; [reflexivity|]. split; reflexivity.
Qed.

Lemma identify_sleep_deficit_inv (df : DataFrame.t) (c : Correlations.t)
      (s : Stressor.t) :
  In s (_identify_stressors df c) -> Stressor.name s = "Sleep Deficit" ->
  In s (sleep_deficit_rule df).
Proof.
  unfold _identify_stressors. intros Hin Hn.
  apply threshold_sleep_deficit; [|assumption].
  destruct (Correlations.mood_factors c) as [fs|]; [|assumption].
  apply correlation_loop_In in Hin.
  destruct Hin as [Hin | [E | E]]; [assumption | ..];
    rewrite Hn in E; discriminate.
Qed.

Lemma identify_includes_thresholds (df : DataFrame.t) (c : Correlations.t)
      (s : Stressor.t) :
  In s (threshold_stressors df) -> In s (_identify_stressors df c).
Proof.
  unfold _identify_stressors. intro Hin.
  destruct (Correlations.mood_factors c) as [fs|]; [|assumption].
  now apply correlation_loop_incl.
Qed.





(** ** No two stressors of one name *)


Lemma NoDup_snoc {A} (l : list A) (x : A) :
  NoDup l -> ~ In x l -> NoDup (l ++ [x]).
Proof.
  intros Hl Hx. induction Hl as [|y l Hy Hl IH]; cbn.
  - constructor; [intros []|constructor].
  - constructor.
    + rewrite in_app_iff. cbn. intros [H | [H | []]]; [contradiction|].
      apply Hx. now left.
    + apply IH. intro H. apply Hx. now right.
Qed.

Lemma loop_invariant_step (stressors : list Stressor.t) (f : Factor.t)
      (fs : list Factor.t) :
  NoDup (metrics (f :: fs)) ->
  loop_invariant stressors (f :: fs) ->
  loop_invariant (correlation_rule stressors f) fs.
Proof.
  intros Hnd [Hn [Hscreen Hsleep]].
  cbn in Hnd. apply NoDup_cons_iff in Hnd. destruct Hnd as [Hf Hnd].
  destruct (correlation_rule_cases stressors f)
    as [E | [[s [E [Hs [Hm _]]]] | [s [E [Hs [Hm _]]]]]]; rewrite E.
  - split; [assumption|]. split; intros Hin Hrem.
    + apply (Hscreen Hin). now right.
    + apply (Hsleep Hin). now right.
  - assert (Hfresh : ~ In "Screen Time Impact" (names stressors)).
    { intro Hin. apply (Hscreen Hin). left. exact Hm. }
    unfold loop_invariant, names. rewrite map_app. cbn [map]. rewrite Hs.
    fold (names stressors).
    split; [now apply NoDup_snoc|]. split; intros Hin Hrem.
    + apply Hf. now rewrite Hm.
    + apply in_app_iff in Hin. destruct Hin as [Hin | [Hin | []]];
        [|discriminate].
      apply (Hsleep Hin). now right.
  - assert (Hfresh : ~ In "Sleep Quality Impact" (names stressors)).
    { intro Hin. apply (Hsleep Hin). left. exact Hm. }
    unfold loop_invariant, names. rewrite map_app. cbn [map]. rewrite Hs.
    fold (names stressors).
    split; [now apply NoDup_snoc|]. split; intros Hin Hrem.
    + apply in_app_iff in Hin. destruct Hin as [Hin | [Hin | []]];
        [|discriminate].
      apply (Hscreen Hin). now right.
    + apply Hf. now rewrite Hm.
Qed.

Lemma correlation_loop_NoDup (fs : list Factor.t)
      (stressors : list Stressor.t) :
  NoDup (metrics fs) ->
  loop_invariant stressors fs ->
  NoDup (names (fold_left correlation_rule fs stressors)).
Proof.
  revert stressors. induction fs as [|f fs IH]; intros stressors Hnd Hinv.
  - exact (proj1 Hinv).
  - cbn. apply IH.
    + cbn in Hnd. now apply NoDup_cons_iff in Hnd.
    + now apply loop_invariant_step.
Qed.

(** A correlation stressor is never appended when the threshold stressor
    of the same cause is in the list. *)
Lemma correlation_loop_skips (fs : list Factor.t)
      (stressors : list Stressor.t) (threshold impact : string) :
  (threshold = "Digital Overload" /\ impact = "Screen Time Impact")
  \/ (threshold = "Sleep Deficit" /\ impact = "Sleep Quality Impact") ->
  In threshold (names stressors) ->
  In impact (names (fold_left correlation_rule fs stressors)) ->
  In impact (names stressors).
Proof.
  intros Hpair. revert stressors.
  induction fs as [|f fs IH]; intros stressors Hthr Hin; [assumption|].
  cbn [fold_left] in Hin.
  destruct (correlation_rule_cases stressors f)
    as [E | [[s [E [Hs [_ Hno]]]] | [s [E [Hs [_ Hno]]]]]];
    rewrite E in Hin.
  - now apply IH.
  - assert (Hthr' : In threshold (names (stressors ++ [s]))).
    { unfold names. rewrite map_app. apply in_app_iff. now left. }
    specialize (IH _ Hthr' Hin).
    unfold names in IH. rewrite map_app in IH. apply in_app_iff in IH.
    destruct IH as [H | H]; [assumption|].
    cbn in H. rewrite Hs in H.
    destruct Hpair as [[-> ->] | [-> ->]];
      [contradiction | destruct H as [H | []]; discriminate].
  - assert (Hthr' : In threshold (names (stressors ++ [s]))).
    { unfold names. rewrite map_app. apply in_app_iff. now left. }
    specialize (IH _ Hthr' Hin).
    unfold names in IH. rewrite map_app in IH. apply in_app_iff in IH.
    destruct IH as [H | H]; [assumption|].
    cbn in H. rewrite Hs in H.
    destruct Hpair as [[-> ->] | [-> ->]];
      [destruct H as [H | []]; discriminate | contradiction].
Qed.

(** ** The correlation finder names each metric once *)

Section Correlations.

Context {L : Libraries}.

Lemma significant_cases (m : string) (v : pyfloat) :
  significant m v = []
  \/ exists f, significant m v = [f] /\ Factor.metric f = m.
Proof.
  unfold significant. destruct v as [|q]; [now left|].
  destruct (Qle_bool _ _); [|now left].
  right. eexists. split; reflexivity.
Qed.

Lemma significant_metrics_incl (l : list (string * pyfloat)) (m : string) :
  In m (metrics (flat_map (fun p => significant (fst p) (snd p)) l)) ->
  In m (map fst l).
Proof.
  induction l as [|p l IH]; cbn [flat_map]; [intros []|].
  unfold metrics. rewrite map_app, in_app_iff. intros [H | H].
  - destruct (significant_cases (fst p) (snd p)) as [E | [f [E Hm]]];
      rewrite E in H; cbn in H; [contradiction|].
    destruct H as [<- | []]. left. now symmetry.
  - right. now apply IH.
Qed.

Lemma significant_metrics_NoDup (l : list (string * pyfloat)) :
  NoDup (map fst l) ->
  NoDup (metrics (flat_map (fun p => significant (fst p) (snd p)) l)).
Proof.
  induction l as [|p l IH]; cbn [flat_map map]; intro Hnd.
  - constructor.
  - apply NoDup_cons_iff in Hnd. destruct Hnd as [Hp Hnd].
    unfold metrics. rewrite map_app.
    destruct (significant_cases (fst p) (snd p)) as [E | [f [E Hm]]];
      rewrite E; cbn [map app]; [now apply IH|].
    constructor; [|now apply IH].
    rewrite Hm. intro Hin. apply Hp.
    now apply significant_metrics_incl.
Qed.

Lemma correlation_columns_NoDup : NoDup correlation_columns.
Proof. unfold correlation_columns. nodup_strings. Qed.

Lemma mood_correlations_columns (df : DataFrame.t) :
  NoDup (map fst (mood_correlations df)).
Proof.
  unfold mood_correlations. rewrite map_map. cbn [fst]. rewrite map_id.
  apply NoDup_filter. unfold available_columns. apply NoDup_filter.
  exact correlation_columns_NoDup.
Qed.

Lemma find_correlations_metrics_NoDup (df : DataFrame.t)
      (p : Physical.t) (e : Emotional.t) (fs : list Factor.t) :
  Correlations.mood_factors (_find_correlations df p e) = Some fs ->
  NoDup (metrics fs).
Proof.
  unfold _find_correlations.
  destruct (_ && _)%bool; cbn; [|discriminate].
  intros [= <-]. apply significant_metrics_NoDup.
  apply mood_correlations_columns.
Qed.

(** At the level of the stressor identifier: with the correlations
    the pipeline computes, the names are pairwise distinct. *)
Lemma identify_stressors_NoDup (df : DataFrame.t)
      (p : Physical.t) (e : Emotional.t) :
  NoDup (names (_identify_stressors df (_find_correlations df p e))).
Proof.
  unfold _identify_stressors.
  destruct (Correlations.mood_factors (_find_correlations df p e))
    as [fs|] eqn:E; [|apply threshold_stressors_NoDup].
  apply correlation_loop_NoDup.
  - exact (find_correlations_metrics_NoDup df p e fs E).
  - destruct (threshold_stressors_no_impact df) as [H1 H2].
    split; [apply threshold_stressors_NoDup|].
    split; intro H; contradiction.
Qed.

Lemma identify_stressors_exclusive (df : DataFrame.t)
      (c : Correlations.t) (threshold impact : string) :
  (threshold = "Digital Overload" /\ impact = "Screen Time Impact")
  \/ (threshold = "Sleep Deficit" /\ impact = "Sleep Quality Impact") ->
  In threshold (names (_identify_stressors df c)) ->
  ~ In impact (names (_identify_stressors df c)).
Proof.
  intros Hpair Hthr Himp.
  assert (Hno : ~ In impact (names (threshold_stressors df))).
  { destruct (threshold_stressors_no_impact df) as [H1 H2].
    destruct Hpair as [[_ ->] | [_ ->]]; assumption. }
  unfold _identify_stressors in *.
  destruct (Correlations.mood_factors c) as [fs|]; [|contradiction].
  apply Hno. apply (correlation_loop_skips fs _ threshold impact Hpair);
    [|assumption].
  unfold names in Hthr. apply in_map_iff in Hthr.
  destruct Hthr as [s [Hn Hin]].
  apply correlation_loop_In in Hin.
  destruct Hin as [Hin | [E | E]].
  - unfold names. rewrite <- Hn. now apply in_map.
  - rewrite Hn in E. destruct Hpair as [[-> _] | [-> _]]; discriminate.
  - rewrite Hn in E. destruct Hpair as [[-> _] | [-> _]]; discriminate.
Qed.

End Correlations.

(** ** Date conversion *)

Section Dates.

Context {L : Libraries}.

Lemma parse_rows_ok (rs : list Row.t) :
  Forall (fun r => exists d, parse_cell (Row.date r) = Ok d) rs ->
  exists rs',
    parse_rows rs = Ok rs'
    /\ Forall2 (fun r r' => exists d, r' = Row.set_date d r) rs rs'.
Proof.
  induction 1 as [|r rs [d Hd] _ [rs' [E HF]]]; cbn.
  - exists []. split; [reflexivity|constructor].
  - rewrite Hd. cbn. rewrite E. cbn.
    eexists. split; [reflexivity|]. constructor; [|assumption].
    now exists d.
Qed.

Lemma parse_rows_inv (rs rs' : list Row.t) :
  parse_rows rs = Ok rs' ->
  Forall (fun r => exists d, parse_cell (Row.date r) = Ok d) rs.
Proof.
  revert rs'. induction rs as [|r rs IH]; intros rs' E; [constructor|].
  cbn in E. destruct (parse_cell (Row.date r)) as [d|] eqn:Hd;
    [|discriminate].
  cbn in E. destruct (parse_rows rs) as [rs''|] eqn:Hrs; [|discriminate].
  constructor; [now exists d | now apply (IH rs'')].
Qed.

Lemma dates_parse_cells (entries : list WellbeingEntry.t) :
  dates_parse entries
  <-> Forall (fun r => exists d, parse_cell (Row.date r) = Ok d)
             (map Row.of_entry entries).
Proof.
  unfold dates_parse. rewrite Forall_map.
  split; intro H; eapply Forall_impl; try exact H; cbn; intros e.
  - intro Hne. destruct (to_datetime (WellbeingEntry.date e)) as [t|];
      [eauto | congruence].
  - intros [d Hd]. destruct (to_datetime (WellbeingEntry.date e));
      [discriminate | discriminate].
Qed.

End Dates.

Section Conversion.

Context {L : Libraries}.

(** The frame after date conversion: same columns, same rows up to the
    [date] cells. *)
Lemma convert_dates_ok (entries : list WellbeingEntry.t) :
  dates_parse entries ->
  exists df,
    convert_dates (DataFrame.of_entries entries) = Ok df
    /\ DataFrame.columns df
       = DataFrame.columns (DataFrame.of_entries entries)
    /\ Forall2 (fun r r' => exists d, r' = Row.set_date d r)
               (map Row.of_entry entries) (DataFrame.rows df).
Proof.
  intro Hd. destruct entries as [|e entries].
  - eexists. split; [reflexivity|]. split; [reflexivity|constructor].
  - apply dates_parse_cells in Hd.
    destruct (parse_rows_ok _ Hd) as [rs [E HF]].
    unfold convert_dates.
    change (DataFrame.has (DataFrame.of_entries (e :: entries)) "date")
      with true.
    unfold DataFrame.col.
    change (DataFrame.rows (DataFrame.of_entries (e :: entries)))
      with (Row.of_entry e :: map Row.of_entry entries).
    cbn [map getitem nth_error of_option bind Row.date Row.of_entry].
    cbn [map] in E. rewrite E.
    eexists. split; [reflexivity|]. split; [reflexivity|assumption].
Qed.

Lemma convert_dates_inv (entries : list WellbeingEntry.t)
      (df : DataFrame.t) :
  convert_dates (DataFrame.of_entries entries) = Ok df ->
  dates_parse entries.
Proof.
  destruct entries as [|e entries]; [constructor|].
  intro E. apply dates_parse_cells.
  unfold convert_dates in E.
  change (DataFrame.has (DataFrame.of_entries (e :: entries)) "date")
    with true in E.
  unfold DataFrame.col in E.
  change (DataFrame.rows (DataFrame.of_entries (e :: entries)))
    with (map Row.of_entry (e :: entries)) in E.
  cbn [map getitem nth_error of_option bind Row.date Row.of_entry] in E.
  fold (map Row.of_entry entries) in E.
  change (Row.of_entry e :: map Row.of_entry entries)
    with (map Row.of_entry (e :: entries)) in E.
  destruct (parse_rows _) as [rs|] eqn:Hrs; [|discriminate].
  now apply parse_rows_inv in Hrs.
Qed.

Lemma converted_column {A} (f : Row.t -> A) (rs rs' : list Row.t) :
  (forall d r, f (Row.set_date d r) = f r) ->
  Forall2 (fun r r' => exists d, r' = Row.set_date d r) rs rs' ->
  map f rs' = map f rs.
Proof.
  intros Hf. induction 1 as [|r r' rs rs' [d ->] _ IH]; cbn;
    [reflexivity|].
  now rewrite Hf, IH.
Qed.

End Conversion.

(** ** The recommendation generator of the primary pipeline *)

Section Recommendations.

(** The frames the pipeline builds: a [steps] column, when there is
    one, has at least one row. *)
Variable df : DataFrame.t.
Hypothesis steps_not_empty :
  DataFrame.has df "steps" = true -> DataFrame.rows df <> [].

Lemma current_avg_finite :
  exists q,
    (if DataFrame.has df "steps"
     then Np.mean (DataFrame.col Row.steps df)
     else Fin 3000) = Fin q.
Proof.
  destruct (DataFrame.has df "steps") eqn:E; [|eauto].
  specialize (steps_not_empty eq_refl).
  unfold DataFrame.col, Np.mean.
  destruct (DataFrame.rows df); [contradiction|]. cbn [map]. eauto.
Qed.

Lemma recommend_ok (s : Stressor.t) :
  exists r, recommend df s = Ok r /\ (List.length r <= 1)%nat.
Proof.
  unfold recommend.
  destruct (PyStr.contains "Sleep" _); [eexists; split; [reflexivity|cbn; lia]|].
  destruct (_ || _)%bool; [eexists; split; [reflexivity|cbn; lia]|].
  destruct (PyStr.contains "Mood" _); [eexists; split; [reflexivity|cbn; lia]|].
  destruct (_ || _)%bool; [|eexists; split; [reflexivity|cbn; lia]].
  destruct current_avg_finite as [q ->]. cbn.
  eexists; split; [reflexivity|cbn; lia].
Qed.

Lemma recommend_all_ok (stressors : list Stressor.t) :
  exists rs,
    recommend_all df stressors = Ok rs
    /\ (List.length rs <= List.length stressors)%nat.
Proof.
  induction stressors as [|s stressors [rs [E Hl]]]; cbn.
  - exists []. split; [reflexivity|cbn; lia].
  - destruct (recommend_ok s) as [r [Er Hr]]. rewrite Er. cbn.
    rewrite E. cbn. eexists. split; [reflexivity|].
    rewrite length_app. lia.
Qed.

Lemma generate_recommendations_ok (stressors : list Stressor.t) :
  exists rs recs,
    recommend_all df stressors = Ok rs
    /\ _generate_recommendations stressors df = Ok recs
    /\ recs = (if Nat.ltb (List.length rs) 2
               then rs ++ [general_recommendation] else rs)
    /\ (1 <= List.length recs)%nat.
Proof.
  destruct (recommend_all_ok stressors) as [rs [E _]].
  exists rs. unfold _generate_recommendations. rewrite E.
  cbn [bind]. destruct (Nat.ltb (List.length rs) 2) eqn:Hlt.
  - exists (rs ++ [general_recommendation]).
    repeat (split; [reflexivity|]). rewrite length_app. cbn. lia.
  - exists rs. repeat (split; [reflexivity|]).
    apply Nat.ltb_ge in Hlt. lia.
Qed.

End Recommendations.

(** ** The whole operation *)

Section Analyze.

Context {L : Libraries}.

Lemma converted_frame_steps (entries : list WellbeingEntry.t)
      (df : DataFrame.t) :
  DataFrame.columns df = DataFrame.columns (DataFrame.of_entries entries) ->
  Forall2 (fun r r' => exists d, r' = Row.set_date d r)
          (map Row.of_entry entries) (DataFrame.rows df) ->
  DataFrame.has df "steps" = true -> DataFrame.rows df <> [].
Proof.
  intros Hc HF Hs. destruct entries as [|e entries].
  - unfold DataFrame.has in Hs. rewrite Hc in Hs. discriminate.
  - inversion HF. discriminate.
Qed.

(** [analyze_data] returns a report exactly when every date is
    accepted by the parser, and the report is made of the stages run on
    the converted frame. *)
Lemma analyze_data_ok (self : FetchAgentSystem.t) (now : string)
      (entries : list WellbeingEntry.t) :
  dates_parse entries ->
  exists df recs,
    convert_dates (DataFrame.of_entries entries) = Ok df
    /\ DataFrame.columns df
       = DataFrame.columns (DataFrame.of_entries entries)
    /\ Forall2 (fun r r' => exists d, r' = Row.set_date d r)
               (map Row.of_entry entries) (DataFrame.rows df)
    /\ _generate_recommendations
         (_identify_stressors df
            (_find_correlations df (_analyze_physical_data df)
                                (_analyze_emotional_data df)))
         df = Ok recs
    /\ analyze_data self now entries
       = Ok {| Report.session_id := FetchAgentSystem.session_id self;
               Report.analysis_timestamp := now;
               Report.stressors :=
                 _identify_stressors df
                   (_find_correlations df (_analyze_physical_data df)
                                       (_analyze_emotional_data df));
               Report.recommendations := recs;
               Report.insights :=
                 {| Insights.physical := _analyze_physical_data df;
                    Insights.emotional := _analyze_emotional_data df;
                    Insights.correlations :=
                      _find_correlations df (_analyze_physical_data df)
                                         (_analyze_emotional_data df) |} |}.
Proof.
  intro Hd.
  destruct (convert_dates_ok entries Hd) as [df [E [Hc HF]]].
  pose proof (converted_frame_steps entries df Hc HF) as Hsteps.
  destruct (generate_recommendations_ok df Hsteps
              (_identify_stressors df
                 (_find_correlations df (_analyze_physical_data df)
                                     (_analyze_emotional_data df))))
    as [rs [recs [_ [Er _]]]].
  exists df, recs. repeat (split; [assumption|]).
  unfold analyze_data. rewrite E. cbn [bind]. rewrite Er. reflexivity.
Qed.

Lemma analyze_data_inv (self : FetchAgentSystem.t) (now : string)
      (entries : list WellbeingEntry.t) (r : Report.t) :
  analyze_data self now entries = Ok r -> dates_parse entries.
Proof.
  unfold analyze_data.
  destruct (convert_dates (DataFrame.of_entries entries)) as [df|] eqn:E;
    [|discriminate].
  intros _. exact (convert_dates_inv entries df E).
Qed.

End Analyze.

(** C1: for every entry list of length at least 1 whose dates parse,
    [analyze_data] returns a report whose stressors carry pairwise
    distinct names; in particular each threshold rule contributes its
    name at most once, and "Screen Time Impact" (resp. "Sleep Quality
    Impact") is absent whenever "Digital Overload" (resp. "Sleep Deficit")
    is present. *)
Theorem analyze_stressor_names_distinct
        {L : Libraries} (self : FetchAgentSystem.t) (now : string)
        (entries : list WellbeingEntry.t) :
  (1 <= List.length entries)%nat ->
  dates_parse entries ->
  exists r,
    analyze_data self now entries = Ok r
    /\ NoDup (names (Report.stressors r))
    /\ (In "Digital Overload" (names (Report.stressors r)) ->
        ~ In "Screen Time Impact" (names (Report.stressors r)))
    /\ (In "Sleep Deficit" (names (Report.stressors r)) ->
        ~ In "Sleep Quality Impact" (names (Report.stressors r))).
Proof.
  intros _ Hd.
  destruct (analyze_data_ok self now entries Hd)
    as [df [recs [_ [_ [_ [_ E]]]]]].
  eexists. split; [exact E|]. cbn [Report.stressors].
  split; [apply identify_stressors_NoDup|].
  split; apply identify_stressors_exclusive; [left | right]; now split.
Qed.

(** Witness for C1: the three sample entries. *)
Lemma analyze_stressor_names_distinct_witness :
  (1 <= List.length Reference.sample_entries)%nat
  /\ dates_parse (L := Reference.libs) Reference.sample_entries
  /\ exists r,
       analyze_data (L := Reference.libs) Reference.system Reference.now
                    Reference.sample_entries = Ok r
       /\ NoDup (names (Report.stressors r)).
Proof.
  assert (H1 : (1 <= List.length Reference.sample_entries)%nat)
    by (cbn; lia).
  assert (H2 : dates_parse (L := Reference.libs) Reference.sample_entries)
    by (repeat constructor; discriminate).
  split; [exact H1|]. split; [exact H2|].
  destruct (analyze_stressor_names_distinct
              (L := Reference.libs) Reference.system Reference.now
              Reference.sample_entries H1 H2) as [r [E [Hn _]]].
  exists r. split; assumption.
Defined.

(** ** Empty requests and failures *)

Section Failures.

Context {L : Libraries}.



End Failures.

(** ** How many recommendations *)


Lemma recommend_not_general (df : DataFrame.t) (s : Stressor.t)
      (rs : list Recommendation.t) :
  recommend df s = Ok rs -> filter is_general_wellbeing rs = [].
Proof.
  unfold recommend.
  destruct (PyStr.contains "Sleep" _); [now intros [= <-]|].
  destruct (_ || _)%bool; [now intros [= <-]|].
  destruct (PyStr.contains "Mood" _); [now intros [= <-]|].
  destruct (_ || _)%bool; [|now intros [= <-]].
  destruct (Py.int_float _); cbn; [now intros [= <-] | discriminate].
Qed.

Lemma recommend_all_not_general (df : DataFrame.t)
      (stressors : list Stressor.t) (rs : list Recommendation.t) :
  recommend_all df stressors = Ok rs -> filter is_general_wellbeing rs = [].
Proof.
  revert rs. induction stressors as [|s stressors IH]; cbn; intros rs.
  - now intros [= <-].
  - destruct (recommend df s) as [r|] eqn:Er; cbn; [|discriminate].
    destruct (recommend_all df stressors) as [rs'|]; cbn; [|discriminate].
    intros [= <-]. rewrite filter_app.
    rewrite (recommend_not_general df s r Er), (IH rs' eq_refl).
    reflexivity.
Qed.

Lemma advise_not_general (s : PatternStressor.t) (r : Advice.t) :
  In r (ExampleAgents.advise s) -> ExampleAgents.is_general r = false.
Proof.
  unfold ExampleAgents.advise.
  set (factor := match PatternStressor.factor s with
                 | Some f => f
                 | None => EmptyString
                 end).
  destruct (String.eqb factor "general_wellbeing") eqn:Eg.
  - apply String.eqb_eq in Eg. rewrite Eg. cbn. intros [].
  - unfold ExampleAgents.is_general.
    destruct (PyStr.contains "poor_sleep" factor).
    { cbn. intros [<- | [<- | []]]; exact Eg. }
    destruct (PyStr.contains "screen_time" factor).
    { cbn. intros [<- | [<- | []]]; exact Eg. }
    destruct (_ || _)%bool.
    { cbn. intros [<- | [<- | []]]; exact Eg. }
    destruct (PyStr.contains "unproductive_screen_time" factor).
    { cbn. intros [<- | []]; exact Eg. }
    destruct (existsb _ _).
    { cbn. intros [<- | [<- | []]]; exact Eg. }
    intros [].
Qed.

Lemma advice_all_specific (stressors : list PatternStressor.t) :
  filter (fun r => negb (ExampleAgents.is_general r))
         (flat_map ExampleAgents.advise stressors)
  = flat_map ExampleAgents.advise stressors
  /\ filter ExampleAgents.is_general
            (flat_map ExampleAgents.advise stressors) = [].
Proof.
  assert (H : forall r, In r (flat_map ExampleAgents.advise stressors) ->
                   ExampleAgents.is_general r = false).
  { intros r Hin. apply in_flat_map in Hin. destruct Hin as [s [_ Hin]].
    exact (advise_not_general s r Hin). }
  induction (flat_map ExampleAgents.advise stressors) as [|r l IH].
  - now split.
  - cbn. rewrite (H r (or_introl eq_refl)). cbn.
    destruct IH as [IH1 IH2]; [intros; apply H; now right|].
    now rewrite IH1, IH2.
Qed.

Lemma pattern_recommendations_bounds (stressors : list PatternStressor.t) :
  (1 <= List.length (ExampleAgents.generate_recommendations stressors)
   <= 5)%nat.
Proof.
  unfold ExampleAgents.generate_recommendations.
  destruct (advice_all_specific stressors) as [Hs Hg].
  set (recs := flat_map ExampleAgents.advise stressors) in *.
  destruct (Nat.ltb (List.length recs) 5) eqn:Hlt.
  - rewrite !filter_app, Hs, Hg. cbn [app filter].
    change (filter (fun r => negb (ExampleAgents.is_general r))
                   ExampleAgents.general_recommendations) with (@nil Advice.t).
    change (filter ExampleAgents.is_general
                   ExampleAgents.general_recommendations)
      with ExampleAgents.general_recommendations.
    rewrite app_nil_r.
    pose proof (firstn_le_length 4 recs) as H4.
    assert (Hl : (List.length (firstn 4 recs) <= 4)%nat)
      by (rewrite length_firstn; lia).
    destruct (Nat.ltb (List.length (firstn 4 recs)) 5) eqn:H5;
      [|apply Nat.ltb_ge in H5; lia].
    rewrite length_app, !length_firstn.
    change (List.length ExampleAgents.general_recommendations) with 2%nat.
    lia.
  - apply Nat.ltb_ge in Hlt. rewrite Hs.
    assert (Hl : List.length (firstn 4 recs) = 4%nat)
      by (rewrite length_firstn; lia).
    rewrite Hl. cbn [Nat.ltb Nat.leb]. rewrite length_app, Hl. rewrite Hg.
    cbn. lia.
Qed.

(** C4: for every non-empty stressor list the recommendation generator
    of the primary pipeline returns at least one recommendation; when the
    stressors produced fewer than two, exactly one "General Wellbeing"
    recommendation of priority "medium" is appended (and none otherwise);
    the pattern-based generator returns between 1 and 5
    recommendations. *)
Theorem recommendation_counts
        (df : DataFrame.t) (stressors : list Stressor.t)
        (pattern_stressors : list PatternStressor.t) :
  stressors <> [] ->
  pattern_stressors <> [] ->
  (DataFrame.has df "steps" = true -> DataFrame.rows df <> []) ->
  (exists produced recs,
      recommend_all df stressors = Ok produced
      /\ _generate_recommendations stressors df = Ok recs
      /\ (1 <= List.length recs)%nat
      /\ ((List.length produced < 2)%nat ->
          recs = produced ++ [general_recommendation]
          /\ List.length (filter is_general_wellbeing recs) = 1%nat)
      /\ ((2 <= List.length produced)%nat ->
          recs = produced /\ filter is_general_wellbeing recs = []))
  /\ Recommendation.target general_recommendation = "General Wellbeing"
  /\ Recommendation.priority general_recommendation = "medium"
  /\ (1 <= List.length
             (ExampleAgents.generate_recommendations pattern_stressors)
      <= 5)%nat.
Proof.
  intros _ _ Hsteps.
  split; [|split; [reflexivity|split; [reflexivity|]]];
    [|apply pattern_recommendations_bounds].
  destruct (generate_recommendations_ok df Hsteps stressors)
    as [produced [recs [Ep [Er [Hrecs Hlen]]]]].
  exists produced, recs. repeat (split; [assumption|]).
  pose proof (recommend_all_not_general df stressors produced Ep) as Hng.
  split; intro Hl.
  - apply Nat.ltb_lt in Hl. rewrite Hl in Hrecs. split; [assumption|].
    rewrite Hrecs, filter_app, Hng. reflexivity.
  - apply Nat.ltb_ge in Hl. rewrite Hl in Hrecs. split; [assumption|].
    now rewrite Hrecs.
Qed.

(** Witness for C4: the sample frame, its "Sleep Deficit" stressor, and
    a "poor_sleep" stressor of the pattern-based pipeline. *)
Lemma recommendation_counts_witness :
  sleep_deficit_rule (DataFrame.of_entries Reference.sample_entries) <> []
  /\ [Reference.poor_sleep] <> []
  /\ (1 <= List.length
             (ExampleAgents.generate_recommendations [Reference.poor_sleep])
      <= 5)%nat.
Proof.
  assert (H1 : sleep_deficit_rule
                 (DataFrame.of_entries Reference.sample_entries) <> [])
    by (vm_compute; discriminate).
  assert (H2 : [Reference.poor_sleep] <> []) by discriminate.
  assert (H3 : DataFrame.has (DataFrame.of_entries Reference.sample_entries)
                             "steps" = true ->
               DataFrame.rows (DataFrame.of_entries Reference.sample_entries)
               <> []) by (intros _; vm_compute; discriminate).
  split; [exact H1|]. split; [exact H2|].
  exact (proj2 (proj2 (proj2 (recommendation_counts _ _ _ H1 H2 H3)))).
Defined.

(** C10: with no stressor the generator of the primary pipeline returns
    exactly the "General Wellbeing" bundle, of priority "medium" with its
    five fixed actions; so a report of [analyze_data] never has an empty
    recommendation list, and has exactly that bundle when no stressor
    fired. *)
Theorem no_stressor_general_wellbeing
        {L : Libraries} (self : FetchAgentSystem.t) (now : string)
        (entries : list WellbeingEntry.t) (r : Report.t) :
  analyze_data self now entries = Ok r ->
  (forall df, _generate_recommendations [] df = Ok [general_recommendation])
  /\ Recommendation.target general_recommendation = "General Wellbeing"
  /\ Recommendation.priority general_recommendation = "medium"
  /\ Recommendation.actions general_recommendation
     = ["Maintain a consistent daily routine";
        "Stay hydrated and eat nutritious meals";
        "Take short breaks throughout the day to reset";
        "Practice deep breathing or meditation when feeling stressed";
        "Balance work with activities you enjoy"]
  /\ Report.recommendations r <> []
  /\ (Report.stressors r = [] ->
      Report.recommendations r = [general_recommendation]).
Proof.
  intro E. repeat (split; [reflexivity|]).
  pose proof (analyze_data_inv self now entries r E) as Hd.
  destruct (analyze_data_ok self now entries Hd)
    as [df [recs [_ [Hc [HF [Er E']]]]]].
  rewrite E' in E. injection E as <-. cbn [Report.recommendations
    Report.stressors].
  split.
  - destruct (generate_recommendations_ok
                df (converted_frame_steps entries df Hc HF)
                (_identify_stressors df
                   (_find_correlations df (_analyze_physical_data df)
                                       (_analyze_emotional_data df))))
      as [rs [recs' [_ [Er' [_ Hlen]]]]].
    rewrite Er in Er'. injection Er' as <-.
    intro Hnil. rewrite Hnil in Hlen. cbn in Hlen. lia.
  - intro Hnil. rewrite Hnil in Er. cbn in Er. now injection Er as <-.
Qed.

(** Witness for C10: one day on which no stressor fires. *)
Lemma no_stressor_general_wellbeing_witness :
  exists r,
    analyze_data (L := Reference.libs) Reference.system Reference.now
      [{| WellbeingEntry.date := "2025-03-04T00:00:00";
          WellbeingEntry.mood := 8;
          WellbeingEntry.energy := 7;
          WellbeingEntry.steps := 9500;
          WellbeingEntry.screenTimeMinutes := 120;
          WellbeingEntry.sleepHours := 8;
          WellbeingEntry.heartRate := 64;
          WellbeingEntry.caloriesBurned := 2200;
          WellbeingEntry.waterIntake := 2000;
          WellbeingEntry.dailyJournal := "Long walk, early night.";
          WellbeingEntry.emotionalState := "Calm." |}] = Ok r
    /\ Report.stressors r = []
    /\ Report.recommendations r = [general_recommendation].
Proof.
  match goal with
  | |- exists r, ?a = Ok r /\ _ => destruct a as [r|e] eqn:E
  end; [|vm_compute in E; discriminate].
  exists r. split; [reflexivity|].
  assert (Hs : Report.stressors r = [])
    by (vm_compute in E; injection E as <-; reflexivity).
  split; [exact Hs|].
  exact (proj2 (proj2 (proj2 (proj2 (proj2
           (no_stressor_general_wellbeing _ _ _ r E))))) Hs).
Defined.

(** ** The sample scenario *)

Lemma sum_Qeq (xs ys : list Q) :
  Forall2 Qeq xs ys -> (Np.sum xs == Np.sum ys)%Q.
Proof.
  induction 1 as [|x y xs ys Hxy _ IH]; cbn; [reflexivity|].
  now rewrite Hxy, IH.
Qed.

(** The mean does not depend on how the rationals are written. *)
Lemma mean_Qeq (xs ys : list Q) :
  Forall2 Qeq xs ys -> Np.mean xs = Np.mean ys.
Proof.
  intro H. pose proof (sum_Qeq xs ys H) as Hs.
  pose proof (Forall2_length H) as Hl.
  destruct H as [|x y xs ys Hxy H]; [reflexivity|].
  unfold Np.mean. f_equal. apply Qred_complete.
  unfold Np.len. rewrite Hl. now rewrite Hs.
Qed.

Lemma correlation_loop_idle (fs : list Factor.t)
      (stressors : list Stressor.t) :
  In "Digital Overload" (names stressors) ->
  In "Sleep Deficit" (names stressors) ->
  fold_left correlation_rule fs stressors = stressors.
Proof.
  intros Hd Hs. induction fs as [|f fs IH]; [reflexivity|].
  cbn [fold_left].
  destruct (correlation_rule_cases stressors f)
    as [E | [[s [_ [_ [_ Hno]]]] | [s [_ [_ [_ Hno]]]]]];
    [now rewrite E | contradiction ..].
Qed.

Lemma has_all_columns (df : DataFrame.t) (c : string) :
  DataFrame.columns df = DataFrame.all_columns ->
  In c DataFrame.all_columns ->
  DataFrame.has df c = true.
Proof.
  intros Hc Hin. unfold DataFrame.has. rewrite Hc.
  apply existsb_exists. exists c. split; [assumption|apply String.eqb_refl].
Qed.

Lemma identify_stressors_sample (df : DataFrame.t) (c : Correlations.t) :
  DataFrame.columns df = DataFrame.all_columns ->
  Np.mean (DataFrame.col Row.sleepHours df) = Fin (32 # 5) ->
  Np.mean (DataFrame.col Row.screenTimeMinutes df) = Fin (740 # 3) ->
  Np.mean (DataFrame.col Row.mood df) = Fin (17 # 3) ->
  Np.mean (DataFrame.col Row.steps df) = Fin 6500 ->
  exists sleep_deficit digital_overload,
    _identify_stressors df c = [sleep_deficit; digital_overload]
    /\ Stressor.name sleep_deficit = "Sleep Deficit"
    /\ Stressor.level sleep_deficit = 3
    /\ Stressor.name digital_overload = "Digital Overload"
    /\ Stressor.level digital_overload = 4.
Proof.
  intros Hc Hsleep Hscreen Hmood Hsteps.
  assert (Ht : exists sd dov,
             threshold_stressors df = [sd; dov]
             /\ Stressor.name sd = "Sleep Deficit"
             /\ Stressor.level sd = 3
             /\ Stressor.name dov = "Digital Overload"
             /\ Stressor.level dov = 4).
  { unfold threshold_stressors, sleep_deficit_rule, digital_overload_rule,
      low_mood_rule, low_activity_rule.
    assert (Ha : forall c, In c DataFrame.all_columns ->
                      DataFrame.has df c = true)
      by (intros; now apply has_all_columns).
    rewrite (Ha "sleepHours"), (Ha "screenTimeMinutes"), (Ha "mood"),
      (Ha "steps"); [|cbn; tauto ..].
    rewrite Hsleep, Hscreen, Hmood, Hsteps.
    eexists. eexists. split; [vm_compute; reflexivity|].
    repeat split. }
  destruct Ht as [sd [dov [Et [H1 [H2 [H3 H4]]]]]].
  exists sd, dov. split; [|repeat split; assumption].
  unfold _identify_stressors.
  destruct (Correlations.mood_factors c) as [fs|]; [|assumption].
  rewrite Et. apply correlation_loop_idle; unfold names; cbn [map In];
    rewrite H1, H3; tauto.
Qed.

(** C6: on three days with sleepHours 6.5, 7.2, 5.5, screenTimeMinutes
    240, 180, 320, steps 7500, 9000, 3000 and mood 6, 7, 4 (whatever the
    other fields, provided the dates parse), [analyze_data] returns a
    report with exactly one stressor named "Sleep Deficit", none named
    "Low Physical Activity", and a recommendation whose target is "Sleep
    Optimization". *)
Theorem sample_scenario
        {L : Libraries} (self : FetchAgentSystem.t) (now : string)
        (entries : list WellbeingEntry.t) :
  Forall2 Qeq (map WellbeingEntry.sleepHours entries)
          [65 # 10; 72 # 10; 55 # 10] ->
  map WellbeingEntry.screenTimeMinutes entries = [240; 180; 320] ->
  map WellbeingEntry.steps entries = [7500; 9000; 3000] ->
  map WellbeingEntry.mood entries = [6; 7; 4] ->
  dates_parse entries ->
  exists r,
    analyze_data self now entries = Ok r
    /\ List.length
         (filter (fun s => String.eqb (Stressor.name s) "Sleep Deficit")
                 (Report.stressors r)) = 1%nat
    /\ ~ In "Low Physical Activity" (names (Report.stressors r))
    /\ exists rec,
         In rec (Report.recommendations r)
         /\ Recommendation.target rec = "Sleep Optimization".
Proof.
  intros Hsleep Hscreen Hsteps Hmood Hd.
  destruct (analyze_data_ok self now entries Hd)
    as [df [recs [_ [Hc [HF [Er E]]]]]].
  assert (Hne : DataFrame.columns df = DataFrame.all_columns).
  { rewrite Hc. destruct entries; [discriminate Hmood | reflexivity]. }
  assert (Hcol : forall A (f : Row.t -> A) (g : WellbeingEntry.t -> A),
             (forall d r, f (Row.set_date d r) = f r) ->
             (forall e, f (Row.of_entry e) = g e) ->
             DataFrame.col f df = map g entries).
  { intros A f g Hf Hg. unfold DataFrame.col.
    rewrite (converted_column f _ _ Hf HF), map_map.
    apply map_ext. exact Hg. }
  destruct (identify_stressors_sample df
              (_find_correlations df (_analyze_physical_data df)
                                  (_analyze_emotional_data df)) Hne)
    as [sd [dov [Es [H1 [H2 [H3 H4]]]]]].
  - rewrite (Hcol _ Row.sleepHours WellbeingEntry.sleepHours)
      by reflexivity.
    now rewrite (mean_Qeq _ _ Hsleep).
  - rewrite (Hcol _ Row.screenTimeMinutes
               (fun e => inject_Z (WellbeingEntry.screenTimeMinutes e)))
      by reflexivity.
    rewrite <- (map_map WellbeingEntry.screenTimeMinutes inject_Z), Hscreen.
    reflexivity.
  - rewrite (Hcol _ Row.mood (fun e => inject_Z (WellbeingEntry.mood e)))
      by reflexivity.
    rewrite <- (map_map WellbeingEntry.mood inject_Z), Hmood.
    reflexivity.
  - rewrite (Hcol _ Row.steps (fun e => inject_Z (WellbeingEntry.steps e)))
      by reflexivity.
    rewrite <- (map_map WellbeingEntry.steps inject_Z), Hsteps.
    reflexivity.
  - eexists. split; [exact E|]. cbn [Report.stressors Report.recommendations].
    rewrite Es in *. split; [|split].
    + cbn [filter]. rewrite H1, H3. reflexivity.
    + unfold names. cbn [map In]. rewrite H1, H3.
      intros [H | [H | []]]; discriminate.
    + exists (sleep_recommendation 3). split; [|reflexivity].
      unfold _generate_recommendations in Er. cbn [recommend_all] in Er.
      unfold recommend in Er. rewrite H1, H2, H3, H4 in Er.
      vm_compute in Er. injection Er as <-. now left.
Qed.

(** Witness for C6: the three entries of the [/sample] route. *)
Lemma sample_scenario_witness :
  exists r,
    analyze_data (L := Reference.libs) Reference.system Reference.now
                 Reference.sample_entries = Ok r
    /\ ~ In "Low Physical Activity" (names (Report.stressors r)).
Proof.
  destruct (sample_scenario (L := Reference.libs) Reference.system
              Reference.now Reference.sample_entries)
    as [r [E [_ [Hno _]]]].
  - repeat constructor.
  - reflexivity.
  - reflexivity.
  - reflexivity.
  - repeat constructor; discriminate.
  - exists r. split; assumption.
Defined.

(** ** Sentiment and stress keywords *)


Lemma all_spaces_app (a b : string) :
  all_spaces (a ++ b)%string = (all_spaces a && all_spaces b)%bool.
Proof.
  induction a as [|c a IH]; cbn; [reflexivity|].
  now rewrite IH, andb_assoc.
Qed.

Lemma lower_all_spaces (s : string) :
  all_spaces s = true -> PyStr.lower s = s.
Proof.
  induction s as [|c s IH]; cbn; [reflexivity|].
  intro H. apply andb_prop in H. destruct H as [Hc Hs].
  apply Ascii.eqb_eq in Hc. subst c. now rewrite (IH Hs).
Qed.

Lemma count_from_all_spaces (keyword s : string) (skip : nat) :
  starts_nonblank keyword = true -> all_spaces s = true ->
  PyStr.count_from keyword s skip = O.
Proof.
  intros Hk. revert skip. induction s as [|c s IH]; intros skip Hs;
    [reflexivity|].
  cbn in Hs. apply andb_prop in Hs. destruct Hs as [Hc Hs].
  apply Ascii.eqb_eq in Hc. subst c.
  cbn [PyStr.count_from]. destruct skip as [|k]; [|now apply IH].
  destruct keyword as [|a keyword]; [discriminate|].
  cbn in Hk. cbn [String.prefix].
  destruct (ascii_dec a " ") as [-> | _]; [discriminate|].
  now apply IH.
Qed.

Lemma count_keywords_all_spaces (text : string) (keywords : list string) :
  forallb starts_nonblank keywords = true -> all_spaces text = true ->
  count_keywords text keywords = 0.
Proof.
  intros Hk Ht. unfold count_keywords.
  assert (H : forall acc, fold_left
            (fun acc keyword =>
               acc + Z.of_nat (PyStr.count (PyStr.lower text) keyword))
            keywords acc = acc); [|apply H].
  induction keywords as [|k keywords IH]; intro acc; [reflexivity|].
  cbn in Hk. apply andb_prop in Hk. destruct Hk as [Hk Hks].
  cbn [fold_left]. rewrite (IH Hks).
  rewrite (lower_all_spaces text Ht).
  destruct k as [|a k]; [discriminate|]. unfold PyStr.count.
  rewrite (count_from_all_spaces (String a k) text O Hk Ht). lia.
Qed.

Lemma join_all_spaces (l : list string) :
  Forall (fun s => all_spaces s = true) l ->
  all_spaces (PyStr.join " " l) = true.
Proof.
  induction 1 as [|s l Hs Hl IH]; [reflexivity|].
  cbn [PyStr.join]. destruct l as [|s' l]; [assumption|].
  rewrite !all_spaces_app, Hs, IH. reflexivity.
Qed.

Lemma combined_text_all_spaces (df : DataFrame.t) :
  Forall (fun r => Row.emotionalState r = EmptyString
                   /\ Row.dailyJournal r = EmptyString)
         (DataFrame.rows df) ->
  all_spaces (combined_text df) = true.
Proof.
  intro H. unfold combined_text. apply join_all_spaces.
  apply Forall_map. eapply Forall_impl; [|exact H].
  intros r [He Hj]. unfold text_fields. rewrite He, Hj.
  destruct (DataFrame.has df "emotionalState"),
    (DataFrame.has df "dailyJournal"); reflexivity.
Qed.

Lemma count_keywords_nonneg (text : string) (keywords : list string) :
  0 <= count_keywords text keywords.
Proof.
  unfold count_keywords.
  assert (H : forall acc, 0 <= acc ->
            0 <= fold_left
                   (fun acc keyword =>
                      acc + Z.of_nat (PyStr.count (PyStr.lower text) keyword))
                   keywords acc); [|apply H; lia].
  induction keywords as [|k keywords IH]; intros acc Hacc; [assumption|].
  cbn [fold_left]. apply IH. lia.
Qed.

Ltac sentiment_cases :=
  repeat split; intros;
  repeat match goal with H : _ /\ _ |- _ => destruct H end;
  try reflexivity; try discriminate; try assumption; try lia;
  try (exfalso; lra); try (exfalso; lia).

(** The label and the reported ratio, from the two counts. *)
Lemma sentiment_of_counts_spec (positive negative : Z) :
  0 <= positive -> 0 <= negative ->
  let ratio := positive_ratio_of positive negative in
  let s := sentiment_of_counts positive negative in
  Sentiment.positive_ratio s = Py.roundQ (ratio * 100) 2
  /\ Sentiment.negative_ratio s = Py.roundQ ((1 - ratio) * 100) 2
  /\ (Sentiment.overall s = "positive" <-> (6 # 10 < ratio)%Q)
  /\ (Sentiment.overall s = "negative" <-> (ratio < 4 # 10)%Q)
  /\ (Sentiment.overall s = "neutral" <-> positive + negative = 0)
  /\ (Sentiment.overall s = "mixed"
      <-> 0 < positive + negative
          /\ (4 # 10 <= ratio)%Q /\ (ratio <= 6 # 10)%Q).
Proof.
  intros Hp Hn. unfold positive_ratio_of, sentiment_of_counts.
  destruct (0 <? positive + negative)%Z eqn:Ht.
  - apply Z.ltb_lt in Ht.
    set (ratio := (inject_Z positive / inject_Z (positive + negative))%Q).
    destruct (Py.Qltb (6 # 10) ratio) eqn:Hhi;
      [apply Qltb_lt in Hhi
      | apply Qltb_ge in Hhi;
        destruct (Py.Qltb ratio (4 # 10)) eqn:Hlo;
        [apply Qltb_lt in Hlo | apply Qltb_ge in Hlo]];
      cbn; sentiment_cases.
  - apply Z.ltb_ge in Ht. cbn. sentiment_cases.
Qed.

Lemma stress_score_spec (text : string) :
  StressIndicators.stress_score (stress_insight text)
  = Z.min 10 (2 * count_keywords text stress_keywords)
  /\ (text = EmptyString ->
      StressIndicators.stress_score (stress_insight text) = 0).
Proof.
  unfold stress_insight. cbn [StressIndicators.stress_score].
  destruct text as [|c text].
  - split; reflexivity.
  - split; [now rewrite Z.mul_comm | discriminate].
Qed.

(** C7: in the emotional analyzer, with [positive] and [negative] the
    keyword occurrences counted over the combined text, the ratio is
    [positive / (positive + negative)] when there is a mention and 0.5
    otherwise; the label is "positive" iff the ratio exceeds 0.6,
    "negative" iff it is below 0.4, "neutral" iff there is no mention and
    "mixed" otherwise; the stress score is [min(10, 2 * mentions)], and 0
    on an empty text; and when every text field of every row is empty the
    analyzer reports "neutral" with a positive ratio of 50 and a stress
    score of 0. The analyzer is a total function: no exception. *)
Theorem emotional_text_rules {L : Libraries} (df : DataFrame.t) :
  (DataFrame.has df "emotionalState" || DataFrame.has df "dailyJournal")%bool
  = true ->
  let text := combined_text df in
  let positive := count_keywords text positive_keywords in
  let negative := count_keywords text negative_keywords in
  let mentions := count_keywords text stress_keywords in
  let ratio := positive_ratio_of positive negative in
  exists s i,
    Emotional.sentiment (_analyze_emotional_data df) = Some s
    /\ Emotional.stress_indicators (_analyze_emotional_data df) = Some i
    /\ Sentiment.positive_ratio s = Py.roundQ (ratio * 100) 2
    /\ (Sentiment.overall s = "positive" <-> (6 # 10 < ratio)%Q)
    /\ (Sentiment.overall s = "negative" <-> (ratio < 4 # 10)%Q)
    /\ (Sentiment.overall s = "neutral" <-> positive + negative = 0)
    /\ (Sentiment.overall s = "mixed"
        <-> 0 < positive + negative
            /\ (4 # 10 <= ratio)%Q /\ (ratio <= 6 # 10)%Q)
    /\ StressIndicators.mentions i = mentions
    /\ StressIndicators.stress_score i = Z.min 10 (2 * mentions)
    /\ (text = EmptyString -> StressIndicators.stress_score i = 0)
    /\ (Forall (fun r => Row.emotionalState r = EmptyString
                         /\ Row.dailyJournal r = EmptyString)
               (DataFrame.rows df) ->
        Sentiment.overall s = "neutral"
        /\ Sentiment.positive_ratio s = 50%Q
        /\ StressIndicators.stress_score i = 0).
Proof.
  intros Htext text positive negative mentions ratio.
  unfold _analyze_emotional_data.
  cbn [Emotional.sentiment Emotional.stress_indicators]. rewrite Htext.
  fold text. eexists. eexists.
  split; [reflexivity|]. split; [reflexivity|].
  destruct (sentiment_of_counts_spec positive negative
              (count_keywords_nonneg _ _) (count_keywords_nonneg _ _))
    as [Hr [_ [Hpos [Hneg [Hneu Hmix]]]]].
  destruct (stress_score_spec text) as [Hscore Hempty].
  unfold sentiment_insight. fold positive negative ratio.
  repeat (split; [assumption|]).
  split; [reflexivity|]. repeat (split; [assumption|]).
  intro Hblank.
  pose proof (combined_text_all_spaces df Hblank) as Hs. fold text in Hs.
  assert (Ep : positive = 0)
    by (now apply count_keywords_all_spaces).
  assert (En : negative = 0)
    by (now apply count_keywords_all_spaces).
  assert (Em : mentions = 0)
    by (now apply count_keywords_all_spaces).
  split; [apply Hneu; lia|]. split.
  - rewrite Hr. unfold ratio. rewrite Ep, En. reflexivity.
  - rewrite Hscore. fold mentions. rewrite Em. reflexivity.
Qed.

(** Witness for C7: one row whose two text fields are empty. *)
Lemma emotional_text_rules_witness :
  exists s,
    Emotional.sentiment
      (_analyze_emotional_data (L := Reference.libs)
         (DataFrame.of_entries
            [{| WellbeingEntry.date := "2025-03-04T00:00:00";
                WellbeingEntry.mood := 8;
                WellbeingEntry.energy := 7;
                WellbeingEntry.steps := 9500;
                WellbeingEntry.screenTimeMinutes := 120;
                WellbeingEntry.sleepHours := 8;
                WellbeingEntry.heartRate := 64;
                WellbeingEntry.caloriesBurned := 2200;
                WellbeingEntry.waterIntake := 2000;
                WellbeingEntry.dailyJournal := EmptyString;
                WellbeingEntry.emotionalState := EmptyString |}]))
    = Some s
    /\ Sentiment.overall s = "neutral"
    /\ Sentiment.positive_ratio s = 50%Q.
Proof.
  match goal with
  | |- exists s, Emotional.sentiment (_analyze_emotional_data ?d) = _ /\ _ =>
      destruct (emotional_text_rules (L := Reference.libs) d eq_refl)
        as [s [i [Es [_ [_ [_ [_ [_ [_ [_ [_ [_ Hblank]]]]]]]]]]]]
  end.
  exists s. split; [exact Es|].
  destruct Hblank as [H1 [H2 _]].
  - repeat constructor.
  - split; assumption.
Defined.

(** ** A single entry *)

Section SingleEntry.

Context {L : Libraries}.

Lemma std_single (x : Q) : Np.std [x] = NaN.
Proof. reflexivity. Qed.

(** With one row the consistency score is computed from
    [min(1, nan)], which is 1: the score is 0. *)
Lemma consistency_single (x : Q) :
  Py.round
    (Py.mul (Fin 100)
       (Py.sub (Fin 1) (Py.min (Fin 1) (Py.div (Np.std [x]) (Fin 2)))))
    2
  = Fin 0.
Proof. reflexivity. Qed.

Lemma single_row_frame (e : WellbeingEntry.t) (df : DataFrame.t) :
  DataFrame.columns df = DataFrame.columns (DataFrame.of_entries [e]) ->
  Forall2 (fun r r' => exists d, r' = Row.set_date d r)
          (map Row.of_entry [e]) (DataFrame.rows df) ->
  exists d,
    df = {| DataFrame.columns := DataFrame.all_columns;
            DataFrame.rows := [Row.set_date d (Row.of_entry e)] |}.
Proof.
  destruct df as [cols rows]. cbn. intros -> HF.
  inversion HF as [|r r' rs rs' [d Hd] Hrest]; subst.
  inversion Hrest; subst. now exists d.
Qed.

End SingleEntry.

(** C9 (as amended): for a list of exactly one entry (whose date parses)
    the sample standard deviation is [nan], and the sleep, mood_patterns
    and energy_patterns sub-insights are emitted all the same. The mood
    and energy volatility fields carry [nan]; the sleep consistency field
    does not: [min(1, nan)] evaluates to 1 and the score is 0. *)
Theorem single_entry_insights
        {L : Libraries} (self : FetchAgentSystem.t) (now : string)
        (e : WellbeingEntry.t) :
  to_datetime (WellbeingEntry.date e) <> None ->
  Np.std [WellbeingEntry.sleepHours e] = NaN
  /\ exists r sleep mood energy,
       analyze_data self now [e] = Ok r
       /\ Physical.sleep (Insights.physical (Report.insights r)) = Some sleep
       /\ Emotional.mood_patterns (Insights.emotional (Report.insights r))
          = Some mood
       /\ Emotional.energy_patterns (Insights.emotional (Report.insights r))
          = Some energy
       /\ Sleep.consistency sleep = Fin 0
       /\ MoodPatterns.volatility mood = NaN
       /\ EnergyPatterns.volatility energy = NaN.
Proof.
  intro Hdate. split; [reflexivity|].
  assert (Hd : dates_parse [e]) by (constructor; [assumption|constructor]).
  destruct (analyze_data_ok self now [e] Hd)
    as [df [recs [_ [Hc [HF [_ E]]]]]].
  destruct (single_row_frame e df Hc HF) as [d ->].
  eexists. eexists. eexists. eexists.
  split; [exact E|].
  cbn [Report.insights Insights.physical Insights.emotional].
  split; [reflexivity|]. split; [reflexivity|]. split; [reflexivity|].
  split; [reflexivity|]. split; reflexivity.
Qed.

(** Witness for C9: the first sample entry alone. *)
Lemma single_entry_insights_witness :
  exists r sleep,
    analyze_data (L := Reference.libs) Reference.system Reference.now
                 (firstn 1 Reference.sample_entries) = Ok r
    /\ Physical.sleep (Insights.physical (Report.insights r)) = Some sleep
    /\ Sleep.consistency sleep = Fin 0.
Proof.
  destruct (single_entry_insights
              (L := Reference.libs) Reference.system Reference.now
              (nth 0 Reference.sample_entries Reference.healthy_day))
    as [_ [r [sleep [mood [energy [E [Hs [_ [_ [Hc _]]]]]]]]]].
  - discriminate.
  - exists r, sleep. split; [exact E|]. split; assumption.
Defined.

(** C9 (counterexample to the claim as stated): for the first sample
    entry alone the report carries a sleep consistency of 0, which is not
    [nan]. *)
Lemma single_entry_consistency_is_zero :
  exists r sleep,
    analyze_data (L := Reference.libs) Reference.system Reference.now
                 (firstn 1 Reference.sample_entries) = Ok r
    /\ Physical.sleep (Insights.physical (Report.insights r)) = Some sleep
    /\ Sleep.consistency sleep = Fin 0
    /\ Py.is_nan (Sleep.consistency sleep) = false.
Proof.
  eexists. eexists. split; [vm_compute; reflexivity|].
  split; [reflexivity|]. split; reflexivity.
Qed.

(** ** Sorting the cluster centres *)



Lemma insert_by_key_In (p x : nat * Q) (l : list (nat * Q)) :
  In x (Np.insert_by_key p l) <-> x = p \/ In x l.
Proof.
  induction l as [|h t IH]; cbn.
  - intuition.
  - destruct (Qle_bool (snd h) (snd p)); cbn; rewrite ?IH; intuition.
Qed.

Lemma insert_by_key_sorted (p : nat * Q) (l : list (nat * Q)) :
  StronglySorted key_le l -> StronglySorted key_le (Np.insert_by_key p l).
Proof.
  induction 1 as [|h t Ht IH Hh]; cbn.
  - constructor; [constructor|constructor].
  - destruct (Qle_bool (snd h) (snd p)) eqn:E.
    + constructor; [assumption|].
      apply Forall_forall. intros x Hx.
      apply insert_by_key_In in Hx. destruct Hx as [-> | Hx].
      * now apply Qle_bool_iff.
      * rewrite Forall_forall in Hh. now apply Hh.
    + assert (Hlt : (snd p <= snd h)%Q).
      { apply Qlt_le_weak. apply Qltb_lt. unfold Py.Qltb. now rewrite E. }
      constructor; [now constructor|].
      constructor; [assumption|].
      eapply Forall_impl; [|exact Hh].
      intros x Hx. unfold key_le in *. now apply Qle_trans with (snd h).
Qed.

Lemma sort_by_key_spec (l : list (nat * Q)) :
  StronglySorted key_le (Np.sort_by_key l)
  /\ forall x, In x (Np.sort_by_key l) -> In x l.
Proof.
  unfold Np.sort_by_key.
  assert (H : forall acc,
             StronglySorted key_le acc ->
             StronglySorted key_le
               (fold_left (fun acc p => Np.insert_by_key p acc) l acc)
             /\ forall x,
                 In x (fold_left (fun acc p => Np.insert_by_key p acc) l acc)
                 -> In x l \/ In x acc).
  { induction l as [|p l IH]; intros acc Hacc; cbn [fold_left].
    - split; [assumption|]. intros x Hx. now right.
    - destruct (IH (Np.insert_by_key p acc)
                   (insert_by_key_sorted p acc Hacc)) as [Hs Hin].
      split; [assumption|]. intros x Hx.
      destruct (Hin x Hx) as [H | H]; [left; now right|].
      apply insert_by_key_In in H. destruct H as [-> | H];
        [left; now left | now right]. }
  destruct (H [] (SSorted_nil _)) as [Hs Hin].
  split; [assumption|]. intros x Hx.
  destruct (Hin x Hx) as [H' | []]. assumption.
Qed.

Lemma StronglySorted_nth (l : list (nat * Q)) (i j : nat) (a b : nat * Q) :
  StronglySorted key_le l -> (i < j)%nat ->
  nth_error l i = Some a -> nth_error l j = Some b -> key_le a b.
Proof.
  intro Hs. revert i j. induction Hs as [|h t Ht IH Hh]; intros i j Hij Ha Hb.
  - destruct i; discriminate.
  - destruct j as [|j]; [lia|]. cbn in Hb.
    destruct i as [|i].
    + cbn in Ha. injection Ha as <-.
      rewrite Forall_forall in Hh. apply Hh.
      now apply nth_error_In with j.
    + cbn in Ha. apply (IH i j); [lia|assumption ..].
Qed.

Lemma combine_seq_nth (ks : list Q) (a i : nat) (k : Q) :
  In (i, k) (combine (seq a (List.length ks)) ks) ->
  (a <= i)%nat /\ nth_error ks (i - a) = Some k.
Proof.
  revert a. induction ks as [|x ks IH]; intros a; cbn; [intros []|].
  intros [[= <- <-] | Hin].
  - split; [lia|]. now rewrite Nat.sub_diag.
  - destruct (IH (S a) Hin) as [Hle Hn]. split; [lia|].
    replace (i - a)%nat with (S (i - S a)) by lia. exact Hn.
Qed.

(** [argsort] lists indices of [keys] by ascending key. *)
Lemma argsort_ascending (keys : list Q) (j j' i i' : nat) (k k' : Q) :
  (j < j')%nat ->
  nth_error (Np.argsort keys) j = Some i ->
  nth_error (Np.argsort keys) j' = Some i' ->
  nth_error keys i = Some k ->
  nth_error keys i' = Some k' ->
  (k <= k')%Q.
Proof.
  intros Hjj Hi Hi' Hk Hk'. unfold Np.argsort in *.
  destruct (sort_by_key_spec (combine (seq 0 (List.length keys)) keys))
    as [Hs Hin].
  rewrite nth_error_map in Hi, Hi'.
  destruct (nth_error _ j) as [[a ka]|] eqn:Ea; [|discriminate].
  destruct (nth_error _ j') as [[b kb]|] eqn:Eb; [|discriminate].
  cbn in Hi, Hi'. injection Hi as ->. injection Hi' as ->.
  pose proof (StronglySorted_nth _ j j' _ _ Hs Hjj Ea Eb) as Hle.
  apply nth_error_In, Hin, combine_seq_nth in Ea.
  apply nth_error_In, Hin, combine_seq_nth in Eb.
  rewrite Nat.sub_0_r in Ea, Eb.
  destruct Ea as [_ Ea], Eb as [_ Eb].
  rewrite Hk in Ea. rewrite Hk' in Eb.
  injection Ea as <-. injection Eb as <-. exact Hle.
Qed.

(** ** The activity clusters *)

Lemma getitem_Ok {A} (l : list A) (i : nat) (x : A) :
  getitem l i = Ok x <-> nth_error l i = Some x.
Proof.
  unfold getitem, of_option.
  destruct (nth_error l i); split; congruence.
Qed.

Ltac bind_inv H :=
  match type of H with
  | Py.bind ?m _ = Ok _ =>
      let x := fresh "x" in
      let E := fresh "E" in
      destruct m as [x|] eqn:E; [cbn [Py.bind] in H | discriminate H]
  end.

Section Clusters.

Context {L : Libraries}.

Lemma center_steps_nth (centers : list (list Q)) (ks : list Q)
      (i : nat) (c : list Q) (k : Q) :
  center_steps_of centers = Ok ks ->
  nth_error centers i = Some c ->
  nth_error c 0 = Some k ->
  nth_error ks i = Some k.
Proof.
  revert ks i. induction centers as [|c' centers IH]; intros ks i Hks Hc Hk.
  - destruct i; discriminate.
  - cbn [center_steps_of] in Hks. bind_inv Hks. bind_inv Hks.
    injection Hks as <-. destruct i as [|i].
    + cbn in Hc. injection Hc as ->. cbn.
      apply getitem_Ok in E. congruence.
    + cbn in Hc. cbn. now apply (IH x0).
Qed.

Lemma cluster_profile_steps (centers : list (list Q)) (ks : list Q)
      (i : nat) (cl : Cluster.t) :
  center_steps_of centers = Ok ks ->
  cluster_profile centers i = Ok cl ->
  exists k, nth_error ks i = Some k /\ Cluster.steps cl = Py.int k.
Proof.
  intros Hks Hcl. unfold cluster_profile in Hcl.
  repeat bind_inv Hcl. injection Hcl as <-.
  apply getitem_Ok in E, E0. exists x0. split; [|reflexivity].
  exact (center_steps_nth centers ks i x x0 Hks E E0).
Qed.

(** The reported step counts of the three clusters are in ascending
    order. *)
Lemma activity_patterns_ascending (df : DataFrame.t)
      (ap : ActivityPatterns.t) :
  activity_patterns df = Ok ap ->
  Cluster.steps (ActivityPatterns.low ap)
  <= Cluster.steps (ActivityPatterns.moderate ap)
  <= Cluster.steps (ActivityPatterns.high ap).
Proof.
  intro H. unfold activity_patterns in H.
  bind_inv H. cbn zeta in H. bind_inv H.
  rename x0 into ks, E0 into Hks.
  bind_inv H. rename x0 into i0, E0 into Hi0. bind_inv H.
  bind_inv H. rename x1 into i1, E1 into Hi1. bind_inv H.
  bind_inv H. rename x2 into i2, E2 into Hi2. bind_inv H.
  bind_inv H. rename x3 into low, E3 into Hlow.
  bind_inv H. rename x3 into moderate, E3 into Hmod.
  bind_inv H. rename x3 into high, E3 into Hhigh.
  injection H as <-. cbn [ActivityPatterns.low ActivityPatterns.moderate
    ActivityPatterns.high].
  apply getitem_Ok in Hi0, Hi1, Hi2.
  destruct (cluster_profile_steps _ ks i0 low Hks Hlow) as [k0 [Hk0 ->]].
  destruct (cluster_profile_steps _ ks i1 moderate Hks Hmod)
    as [k1 [Hk1 ->]].
  destruct (cluster_profile_steps _ ks i2 high Hks Hhigh) as [k2 [Hk2 ->]].
  split; apply int_monotone.
  - apply (argsort_ascending ks 0 1 i0 i1); (lia || assumption).
  - apply (argsort_ascending ks 1 2 i1 i2); (lia || assumption).
Qed.

(** The clustering sub-insight reads the frame only through its three
    feature columns (which also give the number of rows). *)
Lemma activity_patterns_features (df1 df2 : DataFrame.t) :
  feature_rows df1 = feature_rows df2 ->
  activity_patterns df1 = activity_patterns df2.
Proof.
  intro H. unfold activity_patterns. rewrite H.
  assert (Hl : DataFrame.len df1 = DataFrame.len df2).
  { unfold DataFrame.len.
    rewrite <- (length_map (fun r => [Row.steps r; Row.heartRate r;
                                      Row.sleepHours r]) (DataFrame.rows df1)).
    fold (feature_rows df1). rewrite H. apply length_map. }
  now rewrite Hl.
Qed.

End Clusters.


Section ClusterReports.

Context {L : Libraries}.

Lemma converted_features (entries : list WellbeingEntry.t)
      (df : DataFrame.t) :
  Forall2 (fun r r' => exists d, r' = Row.set_date d r)
          (map Row.of_entry entries) (DataFrame.rows df) ->
  feature_rows df
  = map (fun p : Z * Z * Q =>
           [inject_Z (fst (fst p)); inject_Z (snd (fst p)); snd p])
        (map features_of entries).
Proof.
  intro HF. unfold feature_rows.
  rewrite (converted_column
             (fun r => [Row.steps r; Row.heartRate r; Row.sleepHours r])
             _ _ (fun d r => eq_refl) HF).
  now rewrite !map_map.
Qed.

Lemma converted_columns_agree (entries entries' : list WellbeingEntry.t)
      (df df' : DataFrame.t) :
  List.length entries = List.length entries' ->
  DataFrame.columns df = DataFrame.columns (DataFrame.of_entries entries) ->
  DataFrame.columns df'
  = DataFrame.columns (DataFrame.of_entries entries') ->
  DataFrame.columns df = DataFrame.columns df'.
Proof.
  intros Hl -> ->.
  destruct entries, entries'; try discriminate; reflexivity.
Qed.

End ClusterReports.

(** C5 (as amended): two calls of the analysis on entry lists that agree
    on steps, heartRate and sleepHours (in particular two calls on the
    same list, at any time and in any session) fit the same scaler and
    the same clusters (centres and cluster assignment), the solver being
    a function of its seed and its input, and report the same
    activity_patterns; and the clusters reported as low, moderate and
    high have step counts in ascending order, low <= moderate <= high,
    where two of them may be equal. *)
Theorem clustering_repeatable_and_ordered
        {L : Libraries} (self self' : FetchAgentSystem.t)
        (now now' : string) (entries entries' : list WellbeingEntry.t) :
  map features_of entries = map features_of entries' ->
  dates_parse entries ->
  dates_parse entries' ->
  exists df df' r r',
    convert_dates (DataFrame.of_entries entries) = Ok df
    /\ convert_dates (DataFrame.of_entries entries') = Ok df'
    /\ fit_clusters (feature_rows df) = fit_clusters (feature_rows df')
    /\ analyze_data self now entries = Ok r
    /\ analyze_data self' now' entries' = Ok r'
    /\ Physical.activity_patterns (Insights.physical (Report.insights r))
       = Physical.activity_patterns (Insights.physical (Report.insights r'))
    /\ forall ap,
        Physical.activity_patterns (Insights.physical (Report.insights r))
        = Some ap ->
        Cluster.steps (ActivityPatterns.low ap)
        <= Cluster.steps (ActivityPatterns.moderate ap)
        <= Cluster.steps (ActivityPatterns.high ap).
Proof.
  intros Hf Hd Hd'.
  destruct (analyze_data_ok self now entries Hd)
    as [df [recs [Ec [Hc [HF [_ E]]]]]].
  destruct (analyze_data_ok self' now' entries' Hd')
    as [df' [recs' [Ec' [Hc' [HF' [_ E']]]]]].
  assert (Hrows : feature_rows df = feature_rows df').
  { rewrite (converted_features entries df HF),
      (converted_features entries' df' HF'). now rewrite Hf. }
  exists df, df'. eexists. eexists.
  split; [exact Ec|]. split; [exact Ec'|].
  split; [now rewrite Hrows|].
  split; [exact E|]. split; [exact E'|].
  cbn [Report.insights Insights.physical].
  unfold _analyze_physical_data. cbn [Physical.activity_patterns].
  assert (Hcols : DataFrame.columns df = DataFrame.columns df').
  { apply (converted_columns_agree entries entries'); [|assumption ..].
    rewrite <- (length_map features_of entries), Hf. apply length_map. }
  pose proof (activity_patterns_features df df' Hrows) as Hact.
  split.
  - unfold DataFrame.has. now rewrite Hcols, Hact.
  - intros ap Hap.
    destruct (forallb _ _); [|discriminate].
    destruct (activity_patterns df) as [ap'|] eqn:Ea; [|discriminate].
    injection Hap as ->. exact (activity_patterns_ascending df ap Ea).
Qed.

(** Witness for C5: the three sample entries, analysed twice. *)
Lemma clustering_repeatable_and_ordered_witness :
  exists r ap,
    analyze_data (L := Reference.libs) Reference.system Reference.now
                 Reference.sample_entries = Ok r
    /\ Physical.activity_patterns (Insights.physical (Report.insights r))
       = Some ap
    /\ Cluster.steps (ActivityPatterns.low ap)
       <= Cluster.steps (ActivityPatterns.moderate ap)
       <= Cluster.steps (ActivityPatterns.high ap).
Proof.
  destruct (clustering_repeatable_and_ordered
              (L := Reference.libs) Reference.system Reference.system
              Reference.now Reference.now
              Reference.sample_entries Reference.sample_entries)
    as [df [df' [r [r' [_ [_ [_ [E [_ [_ Hord]]]]]]]]]].
  - reflexivity.
  - repeat constructor; discriminate.
  - repeat constructor; discriminate.
  - destruct (Physical.activity_patterns
                (Insights.physical (Report.insights r))) as [ap|] eqn:Ea.
    + exists r, ap. split; [exact E|]. split; [exact Ea|].
      now apply Hord.
    + exfalso. vm_compute in E. injection E as <-. discriminate Ea.
Defined.

(** C5 (counterexample to the claim as stated): three distinct days, two
    of them with 1000 steps, are three clusters of one day each; the
    clusters reported as low and moderate both have 1000 steps, so low is
    not strictly below moderate. *)
Lemma cluster_steps_may_tie :
  exists r ap,
    analyze_data (L := Reference.libs) Reference.system Reference.now
                 Reference.two_days_same_steps = Ok r
    /\ Physical.activity_patterns (Insights.physical (Report.insights r))
       = Some ap
    /\ Cluster.steps (ActivityPatterns.low ap) = 1000
    /\ Cluster.steps (ActivityPatterns.moderate ap) = 1000
    /\ ~ (Cluster.steps (ActivityPatterns.low ap)
          < Cluster.steps (ActivityPatterns.moderate ap)).
Proof.
  eexists. eexists. split; [vm_compute; reflexivity|].
  split; [reflexivity|]. split; [reflexivity|]. split; [reflexivity|].
  cbn. lia.
Qed.

(** ** A failing clustering step *)

Section FewRows.

Context {L : Libraries}.




End FewRows.

(** ** The pattern-based pipeline *)

Section PatternPipeline.

Context {L : Libraries}.

(** An exception anywhere in the [try] block of [identify_patterns]
    empties the whole pattern list. *)
Lemma identify_patterns_catches (df : HealthFrame.t) (e : exn) :
  ExampleAgents.patterns_or_raise df = Raise e ->
  ExampleAgents.identify_patterns df = [].
Proof.
  intro H. unfold ExampleAgents.identify_patterns. now rewrite H.
Qed.




Lemma start_analysis_empty (today user_id : string) :
  ExampleAgents.start_analysis (Ok []) today user_id
  = AnalysisError user_id
                  ("Error during analysis: " ++ str_exn IndexError)%string
                  today.
Proof. reflexivity. Qed.

Lemma start_analysis_raise (e : exn) (today user_id : string) :
  ExampleAgents.start_analysis (Raise e) today user_id
  = AnalysisError user_id ("Error during analysis: " ++ str_exn e)%string
                  today.
Proof. reflexivity. Qed.


End PatternPipeline.








(** ** The builtins on concrete values *)

Example format_fixed_sleep :
  PyStr.format_fixed (Fin (32 # 5)) 1 = "6.4".
Proof. reflexivity. Qed.

Example format_fixed_steps :
  PyStr.format_fixed (Fin (13001 # 2)) 0 = "6500".
Proof. reflexivity. Qed.

Example format_fixed_negative :
  PyStr.format_fixed (Fin (-1 # 25)) 2 = "-0.04".
Proof. reflexivity. Qed.

Example count_without_overlap : PyStr.count "aaaa" "aa" = 2%nat.
Proof. reflexivity. Qed.

Example count_stress :
  PyStr.count "stressed and distressed, no stress" "stress" = 3%nat.
Proof. reflexivity. Qed.

Example word_count_blanks : PyStr.word_count "  a  bc " = 2%nat.
Proof. reflexivity. Qed.

Example replace_next_day :
  PyStr.replace (PyStr.replace "mood_level_next_day" "_next_day"
                               " the next day") "_" " "
  = "mood level the next day".
Proof. reflexivity. Qed.

Example int_truncates_toward_zero :
  Py.int (36 # 10) = 3 /\ Py.int (- (36 # 10)) = -3.
Proof. split; reflexivity. Qed.

Example round_half_to_even :
  Py.roundQ (5 # 2) 0 = 2%Q /\ Py.roundQ (7 # 2) 0 = 4%Q
  /\ Py.roundQ (1667 # 100) 1 = (167 # 10)%Q.
Proof. repeat split. Qed.

Example min_with_nan :
  Py.min (Fin 1) NaN = Fin 1 /\ Py.min NaN (Fin 1) = NaN.
Proof. split; reflexivity. Qed.

Example argsort_keeps_ties :
  Np.argsort [5000%Q; 1000%Q; 1000%Q] = [1%nat; 2%nat; 0%nat].
Proof. reflexivity. Qed.

Example bincount_labels :
  Np.bincount [0%nat; 2%nat; 2%nat] = [1; 0; 2].
Proof. reflexivity. Qed.

(** The trend of three moods rising (resp. falling) by 2 a day. *)
Example mood_trend_slopes :
  Np.polyfit_slope (Np.arange 3) [3%Q; 5%Q; 7%Q] = 2%Q
  /\ Np.polyfit_slope (Np.arange 3) [7%Q; 5%Q; 3%Q] = (-2)%Q.
Proof. split; reflexivity. Qed.

(** The merge of the pattern-based stressors keeps, for a factor met
    twice, the entry of greatest frequency. *)
Example merge_keeps_the_strongest :
  map PatternStressor.frequency
      (ExampleAgents.merge
         [ExampleAgents.factor_stressor "poor_sleep" 3 4 "a";
          ExampleAgents.factor_stressor "sedentary_behavior" 3 4000 "b";
          ExampleAgents.factor_stressor "poor_sleep" 6 5 "c"]
         [ExampleAgents.factor_stressor "poor_sleep" 3 4 "a";
          ExampleAgents.factor_stressor "sedentary_behavior" 3 4000 "b";
          ExampleAgents.factor_stressor "poor_sleep" 6 5 "c"]
         [])
  = [Some 6; Some 3].
Proof. reflexivity. Qed.

(** ** Merging the stressors of the pattern-based pipeline *)

Lemma best_match_In (first : PatternStressor.t)
      (others : list PatternStressor.t) :
  In (ExampleAgents.best_match first others) (first :: others).
Proof.
  unfold ExampleAgents.best_match. revert first.
  induction others as [|s others IH]; intro first; cbn [fold_left].
  - now left.
  - destruct (Py.Qltb _ _).
    + right. exact (IH s).
    + destruct (IH first) as [H | H]; [now left | right; now right].
Qed.

(** The entry kept for a factor is one of the entries of that factor. *)
Lemma merged_entry_factor (stressors : list PatternStressor.t)
      (stressor : PatternStressor.t) :
  let similar :=
    filter (fun s => String.eqb (ExampleAgents.factor_of s)
                                (ExampleAgents.factor_of stressor))
           stressors in
  ExampleAgents.factor_of
    (match similar with
     | first :: ((_ :: _) as others) => ExampleAgents.best_match first others
     | _ => stressor
     end)
  = ExampleAgents.factor_of stressor.
Proof.
  cbn zeta.
  destruct (filter _ stressors) as [|first [|second others]] eqn:E;
    [reflexivity | reflexivity |].
  pose proof (best_match_In first (second :: others)) as Hin.
  rewrite <- E in Hin. apply filter_In in Hin.
  destruct Hin as [_ Hin]. now apply String.eqb_eq in Hin.
Qed.

Lemma merge_factors (stressors todo : list PatternStressor.t)
      (added_factors : list string) :
  NoDup (map ExampleAgents.factor_of
             (ExampleAgents.merge stressors todo added_factors))
  /\ forall s,
      In s (ExampleAgents.merge stressors todo added_factors) ->
      ~ In (ExampleAgents.factor_of s) added_factors.
Proof.
  revert added_factors.
  induction todo as [|stressor rest IH]; intro added_factors;
    cbn [ExampleAgents.merge].
  - split; [constructor | intros s []].
  - destruct (existsb _ added_factors) eqn:Eadded; [apply IH|].
    destruct (IH (ExampleAgents.factor_of stressor :: added_factors))
      as [Hnd Hfresh].
    pose proof (merged_entry_factor stressors stressor) as Hf.
    cbn zeta in Hf.
    split.
    + cbn [map]. constructor; [|assumption].
      rewrite Hf. intro Hin. apply in_map_iff in Hin.
      destruct Hin as [s [Hs Hin]]. apply (Hfresh s Hin).
      left. now symmetry.
    + intros s [<- | Hin].
      * rewrite Hf. intro Hin.
        assert (Hex : existsb (String.eqb (ExampleAgents.factor_of stressor))
                              added_factors = true).
        { apply existsb_exists. eexists. split; [exact Hin|].
          apply String.eqb_refl. }
        congruence.
      * intro Hadded. apply (Hfresh s Hin). now right.
Qed.

(** After the merge no two stressors share a factor. *)
Lemma identify_stressors_distinct_factors
      (df : HealthFrame.t) (patterns : list Pattern)
      (stressors : list PatternStressor.t) :
  ExampleAgents.identify_stressors df patterns = Ok stressors ->
  NoDup (map ExampleAgents.factor_of stressors).
Proof.
  unfold ExampleAgents.identify_stressors.
  destruct (HealthFrame.rows df); [discriminate|].
  intros [= <-]. apply merge_factors.
Qed.

(** * Further properties of the two pipelines *)

(** ** Rounding *)

Lemma round_half_even_bounds (q : Q) (a b : Z) :
  (inject_Z a <= q)%Q -> (q <= inject_Z b)%Q ->
  a <= Py.round_half_even q <= b.
Proof.
  intros Ha Hb. unfold Py.round_half_even.
  assert (Hfa : a <= Qfloor q).
  { rewrite <- (Qfloor_Z a). now apply Qfloor_resp_le. }
  assert (Hfb : Qfloor q <= b).
  { rewrite <- (Qfloor_Z b). now apply Qfloor_resp_le. }
  assert (Hstrict : (0 < q - inject_Z (Qfloor q))%Q -> Qfloor q < b).
  { intro Hpos. destruct (Z.eq_dec (Qfloor q) b) as [E | E]; [|lia].
    exfalso. rewrite E in Hpos. lra. }
  destruct (Qcompare (q - inject_Z (Qfloor q)) (1 # 2)) eqn:Ec.
  - apply Qeq_alt in Ec.
    assert (Hs : Qfloor q < b) by (apply Hstrict; rewrite Ec; reflexivity).
    destruct (Z.even (Qfloor q)); lia.
  - lia.
  - apply Qgt_alt in Ec.
    assert (Hs : Qfloor q < b) by (apply Hstrict; lra).
    lia.
Qed.

Lemma pow10_pos (n : nat) : 0 < 10 ^ Z.of_nat n.
Proof. apply Z.pow_pos_nonneg; lia. Qed.

(** [round(x, n)] keeps a value between two bounds that have at most
    [n] decimals. *)
Lemma roundQ_bounds (q : Q) (n : nat) (a b : Z) :
  let p := inject_Z (10 ^ Z.of_nat n) in
  (inject_Z a / p <= q)%Q -> (q <= inject_Z b / p)%Q ->
  (inject_Z a / p <= Py.roundQ q n)%Q /\ (Py.roundQ q n <= inject_Z b / p)%Q.
Proof.
  intros p Ha Hb. unfold Py.roundQ. fold p.
  assert (Hp : (0 < p)%Q).
  { unfold p. change 0%Q with (inject_Z 0). rewrite <- Zlt_Qlt.
    apply pow10_pos. }
  assert (Hcancel : forall z, (inject_Z z / p * p == inject_Z z)%Q)
    by (intro z; field; lra).
  assert (Ha' : (inject_Z a <= q * p)%Q).
  { rewrite <- (Hcancel a). now apply Qmult_le_compat_r; [|apply Qlt_le_weak]. }
  assert (Hb' : (q * p <= inject_Z b)%Q).
  { rewrite <- (Hcancel b). now apply Qmult_le_compat_r; [|apply Qlt_le_weak]. }
  destruct (round_half_even_bounds (q * p) a b Ha' Hb') as [H1 H2].
  rewrite Qred_correct. split.
  - apply Qle_shift_div_l; [assumption|]. rewrite Hcancel.
    now rewrite <- Zle_Qle.
  - apply Qle_shift_div_r; [assumption|]. rewrite Hcancel.
    now rewrite <- Zle_Qle.
Qed.

(** ** The sleep insight *)

Lemma reference_sqrt_nonneg (q : Q) : (0 <= Reference.sqrt q)%Q.
Proof.
  unfold Reference.sqrt. destruct (Qnum q <=? 0)%Z eqn:E; [apply Qle_refl|].
  rewrite Qred_correct.
  apply Qle_shift_div_l.
  - change 0%Q with (inject_Z 0). rewrite <- Zlt_Qlt.
    apply Z.mul_pos_pos; [reflexivity | reflexivity].
  - rewrite Qmult_0_l.
    match goal with
    | |- (0 <= ?z # 1)%Q => change (inject_Z 0 <= inject_Z z)%Q
    end.
    rewrite <- Zle_Qle. apply Z.sqrt_nonneg.
Qed.

Section SleepInsight.

Context {L : Libraries}.

Hypothesis sqrt_nonneg : forall q, (0 <= np_sqrt q)%Q.

Lemma std_nonneg (xs : list Q) (s : Q) : Np.std xs = Fin s -> (0 <= s)%Q.
Proof.
  unfold Np.std. destruct (Np.mean xs); [discriminate|].
  destruct (Nat.leb _ _); [discriminate|].
  intros [= <-]. apply sqrt_nonneg.
Qed.

(** The consistency score is a number between 0 and 100 whatever the
    column holds: an undefined standard deviation gives 0, not [nan]. *)
Lemma consistency_range (sleep_std : pyfloat) :
  (forall s, sleep_std = Fin s -> (0 <= s)%Q) ->
  exists c,
    Py.round
      (Py.mul (Fin 100)
         (Py.sub (Fin 1) (Py.min (Fin 1) (Py.div sleep_std (Fin 2)))))
      2 = Fin c
    /\ (0 <= c)%Q /\ (c <= 100)%Q.
Proof.
  intro Hs. destruct sleep_std as [|s].
  - exists 0%Q. split; [reflexivity|]. split; [apply Qle_refl | discriminate].
  - specialize (Hs s eq_refl).
    cbn [Py.div Py.lift2]. unfold Py.min. cbn [Py.ltb].
    assert (Hm : exists m, (if Py.Qltb (Qred (s / 2)) 1
                            then Fin (Qred (s / 2)) else Fin 1) = Fin m
                           /\ (0 <= m)%Q /\ (m <= 1)%Q).
    { destruct (Py.Qltb (Qred (s / 2)) 1) eqn:E.
      - eexists. split; [reflexivity|]. apply Qltb_lt in E.
        rewrite Qred_correct in *. split; [|lra].
        apply Qle_shift_div_l; lra.
      - exists 1%Q. split; [reflexivity|]. split; discriminate. }
    destruct Hm as [m [-> [Hm0 Hm1]]].
    cbn [Py.sub Py.mul Py.lift2 Py.round].
    eexists. split; [reflexivity|].
    pose proof (roundQ_bounds (Qred (100 * Qred (1 - m))) 2 0 10000) as B.
    cbv zeta in B.
    assert (E0 : (inject_Z 0 / inject_Z (10 ^ Z.of_nat 2) == 0)%Q)
      by reflexivity.
    assert (E1 : (inject_Z 10000 / inject_Z (10 ^ Z.of_nat 2) == 100)%Q)
      by reflexivity.
    rewrite E0, E1 in B. apply B; rewrite !Qred_correct; nra.
Qed.

End SleepInsight.

(** X1: the sleep consistency score reported by the physical analyzer is
    always a number between 0 and 100, never [nan], whatever the
    [sleepHours] column holds (no row, one row, any spread), provided
    the square root is not negative. *)
Theorem sleep_consistency_in_range {L : Libraries} (df : DataFrame.t) :
  (forall q, (0 <= np_sqrt q)%Q) ->
  exists c,
    Sleep.consistency (sleep_insight df) = Fin c
    /\ (0 <= c)%Q /\ (c <= 100)%Q.
Proof.
  intro Hsqrt. unfold sleep_insight. cbn [Sleep.consistency].
  apply consistency_range. intros s Hs. exact (std_nonneg Hsqrt _ s Hs).
Qed.

(** Witness for X1: the sample frame with the reference square root. *)
Lemma sleep_consistency_in_range_witness :
  exists c,
    Sleep.consistency
      (sleep_insight (L := Reference.libs)
                     (DataFrame.of_entries Reference.sample_entries)) = Fin c
    /\ (0 <= c)%Q /\ (c <= 100)%Q.
Proof.
  exact (sleep_consistency_in_range
           (L := Reference.libs)
           (DataFrame.of_entries Reference.sample_entries)
           reference_sqrt_nonneg).
Defined.

(** ** Where a stressor comes from *)

Lemma digital_overload_rule_inv (df : DataFrame.t) (s : Stressor.t) :
  In s (digital_overload_rule df) ->
  exists m,
    Np.mean (DataFrame.col Row.screenTimeMinutes df) = Fin m
    /\ Py.Qltb 180 m = true
    /\ Stressor.name s = "Digital Overload"
    /\ Stressor.level s = Z.min 10 (Py.int (m / 60)).
Proof.
  unfold digital_overload_rule.
  destruct (DataFrame.has df "screenTimeMinutes"); [|intros []].
  destruct (Np.mean _) as [|m]; [intros []|].
  destruct (Py.Qltb 180 m) eqn:E; [|intros []].
  intros [<- | []]. exists m.
  split; [reflexivity|]. split; [exact E|]. split; reflexivity.
Qed.

Lemma low_mood_rule_inv (df : DataFrame.t) (s : Stressor.t) :
  In s (low_mood_rule df) ->
  exists m,
    Np.mean (DataFrame.col Row.mood df) = Fin m
    /\ Py.Qltb m 5 = true
    /\ Stressor.name s = "Low Mood Patterns"
    /\ Stressor.level s = 11 - Py.int m.
Proof.
  unfold low_mood_rule.
  destruct (DataFrame.has df "mood"); [|intros []].
  destruct (Np.mean _) as [|m]; [intros []|].
  destruct (Py.Qltb m 5) eqn:E; [|intros []].
  intros [<- | []]. exists m.
  split; [reflexivity|]. split; [exact E|]. split; reflexivity.
Qed.

Lemma low_activity_rule_inv (df : DataFrame.t) (s : Stressor.t) :
  In s (low_activity_rule df) ->
  exists m,
    Np.mean (DataFrame.col Row.steps df) = Fin m
    /\ Py.Qltb m 5000 = true
    /\ Stressor.name s = "Low Physical Activity"
    /\ Stressor.level s = Z.min 10 (Py.int (10 - m / 1000)).
Proof.
  unfold low_activity_rule.
  destruct (DataFrame.has df "steps"); [|intros []].
  destruct (Np.mean _) as [|m]; [intros []|].
  destruct (Py.Qltb m 5000) eqn:E; [|intros []].
  intros [<- | []]. exists m.
  split; [reflexivity|]. split; [exact E|]. split; reflexivity.
Qed.

Lemma digital_overload_rule_fires (df : DataFrame.t) (m : Q) :
  DataFrame.has df "screenTimeMinutes" = true ->
  Np.mean (DataFrame.col Row.screenTimeMinutes df) = Fin m ->
  Py.Qltb 180 m = true ->
  exists s, digital_overload_rule df = [s]
            /\ Stressor.name s = "Digital Overload".
Proof.
  intros Hc Hm Hlt. unfold digital_overload_rule. rewrite Hc, Hm, Hlt.
  eexists. split; reflexivity.
Qed.

(** A stressor added by the correlation loop comes from a negative
    factor of moderate or strong impact, which gives it its level. *)
Lemma correlation_rule_origin (stressors : list Stressor.t) (f : Factor.t)
      (s : Stressor.t) :
  In s (correlation_rule stressors f) ->
  In s stressors
  \/ (Factor.relationship f = "negative"
      /\ (Factor.impact f = "moderate" \/ Factor.impact f = "strong")
      /\ Stressor.level s
         = Z.min 10 (Py.int (Qabs (Factor.correlation f) * 10))
      /\ ((Factor.metric f = "screenTimeMinutes"
           /\ Stressor.name s = "Screen Time Impact")
          \/ (Factor.metric f = "sleepHours"
              /\ Stressor.name s = "Sleep Quality Impact"))).
Proof.
  unfold correlation_rule.
  destruct (String.eqb (Factor.relationship f) "negative") eqn:Er;
    cbn [andb]; [|now left].
  destruct (existsb _ _) eqn:Ei; [|now left].
  apply String.eqb_eq in Er.
  assert (Hi : Factor.impact f = "moderate" \/ Factor.impact f = "strong").
  { cbn in Ei. rewrite orb_false_r in Ei. apply orb_prop in Ei.
    destruct Ei as [E | E]; apply String.eqb_eq in E; auto. }
  destruct (String.eqb (Factor.metric f) "screenTimeMinutes") eqn:Em;
    cbn [andb].
  - apply String.eqb_eq in Em.
    destruct (any_named "Digital Overload" stressors); cbn [negb].
    + rewrite Em. cbn. now left.
    + rewrite in_app_iff. intros [H | [<- | []]]; [now left|].
      right. repeat split; auto.
  - destruct (String.eqb (Factor.metric f) "sleepHours") eqn:Es;
      cbn [andb]; [|now left].
    apply String.eqb_eq in Es.
    destruct (any_named "Sleep Deficit" stressors); cbn [negb]; [now left|].
    rewrite in_app_iff. intros [H | [<- | []]]; [now left|].
    right. repeat split; auto.
Qed.

Lemma correlation_loop_origin (fs : list Factor.t)
      (stressors : list Stressor.t) (s : Stressor.t) :
  In s (fold_left correlation_rule fs stressors) ->
  In s stressors
  \/ exists f,
      In f fs
      /\ Factor.relationship f = "negative"
      /\ (Factor.impact f = "moderate" \/ Factor.impact f = "strong")
      /\ Stressor.level s
         = Z.min 10 (Py.int (Qabs (Factor.correlation f) * 10))
      /\ ((Factor.metric f = "screenTimeMinutes"
           /\ Stressor.name s = "Screen Time Impact")
          \/ (Factor.metric f = "sleepHours"
              /\ Stressor.name s = "Sleep Quality Impact")).
Proof.
  revert stressors. induction fs as [|f fs IH]; intros stressors Hin.
  - now left.
  - cbn [fold_left] in Hin. apply IH in Hin.
    destruct Hin as [Hin | [f' [Hf' H]]].
    + apply correlation_rule_origin in Hin.
      destruct Hin as [Hin | H]; [now left|].
      right. exists f. split; [now left | assumption].
    + right. exists f'. split; [now right | assumption].
Qed.

(** Every stressor is the product of one of the six rules. *)
Lemma identify_stressors_origin (df : DataFrame.t) (c : Correlations.t)
      (s : Stressor.t) :
  In s (_identify_stressors df c) ->
  In s (sleep_deficit_rule df)
  \/ In s (digital_overload_rule df)
  \/ In s (low_mood_rule df)
  \/ In s (low_activity_rule df)
  \/ exists fs f,
      Correlations.mood_factors c = Some fs
      /\ In f fs
      /\ Factor.relationship f = "negative"
      /\ (Factor.impact f = "moderate" \/ Factor.impact f = "strong")
      /\ Stressor.level s
         = Z.min 10 (Py.int (Qabs (Factor.correlation f) * 10))
      /\ ((Factor.metric f = "screenTimeMinutes"
           /\ Stressor.name s = "Screen Time Impact")
          \/ (Factor.metric f = "sleepHours"
              /\ Stressor.name s = "Sleep Quality Impact")).
Proof.
  unfold _identify_stressors. intro Hin.
  assert (Ht : In s (threshold_stressors df) ->
               In s (sleep_deficit_rule df)
               \/ In s (digital_overload_rule df)
               \/ In s (low_mood_rule df)
               \/ In s (low_activity_rule df)).
  { unfold threshold_stressors. rewrite !in_app_iff. tauto. }
  destruct (Correlations.mood_factors c) as [fs|]; [|tauto].
  apply correlation_loop_origin in Hin.
  destruct Hin as [Hin | [f H]]; [tauto|].
  do 4 right. exists fs, f. split; [reflexivity | assumption].
Qed.

Lemma identify_digital_overload_inv (df : DataFrame.t) (c : Correlations.t)
      (s : Stressor.t) :
  In s (_identify_stressors df c) ->
  Stressor.name s = "Digital Overload" ->
  In s (digital_overload_rule df).
Proof.
  intros Hin Hn. apply identify_stressors_origin in Hin.
  destruct Hin as [H | [H | [H | [H | [fs [f [_ [_ [_ [_ [_ H]]]]]]]]]]].
  - apply sleep_deficit_rule_inv in H.
    destruct H as [m [_ [_ [E _]]]]. congruence.
  - assumption.
  - apply low_mood_rule_inv in H.
    destruct H as [m [_ [_ [E _]]]]. congruence.
  - apply low_activity_rule_inv in H.
    destruct H as [m [_ [_ [E _]]]]. congruence.
  - destruct H as [[_ E] | [_ E]]; congruence.
Qed.

(** X2: the flags of the physical insights and the stressor list agree:
    in every report, the sleep insight says "deficit" exactly when a
    "Sleep Deficit" stressor is listed, and the screen-time insight says
    "excessive" exactly when a "Digital Overload" stressor is listed. *)
Theorem insight_flags_match_stressors
        {L : Libraries} (self : FetchAgentSystem.t) (now : string)
        (entries : list WellbeingEntry.t) (r : Report.t) :
  analyze_data self now entries = Ok r ->
  (forall sleep,
      Physical.sleep (Insights.physical (Report.insights r)) = Some sleep ->
      (Sleep.deficit sleep = true
       <-> In "Sleep Deficit" (names (Report.stressors r))))
  /\ (forall screen,
         Physical.screen_time (Insights.physical (Report.insights r))
         = Some screen ->
         (ScreenTime.excessive screen = true
          <-> In "Digital Overload" (names (Report.stressors r)))).
Proof.
  intro E.
  pose proof (analyze_data_inv self now entries r E) as Hd.
  destruct (analyze_data_ok self now entries Hd)
    as [df [recs [_ [_ [_ [_ E']]]]]].
  rewrite E' in E. injection E as <-.
  cbn [Report.insights Report.stressors Insights.physical].
  set (c := _find_correlations df (_analyze_physical_data df)
                               (_analyze_emotional_data df)).
  unfold _analyze_physical_data.
  cbn [Physical.sleep Physical.screen_time].
  split.
  - intros sleep Hs.
    destruct (DataFrame.has df "sleepHours") eqn:Hc; [|discriminate].
    injection Hs as <-. unfold sleep_insight. cbn [Sleep.deficit].
    split.
    + intro Hlt.
      destruct (Np.mean (DataFrame.col Row.sleepHours df)) as [|m] eqn:Hm;
        [discriminate|].
      destruct (sleep_deficit_rule_fires df m Hc Hm Hlt) as [s [Es [Hn _]]].
      unfold names. rewrite <- Hn. apply in_map.
      apply identify_includes_thresholds.
      unfold threshold_stressors. rewrite Es. now left.
    + intro Hin. unfold names in Hin. apply in_map_iff in Hin.
      destruct Hin as [s [Hn Hin]].
      apply identify_sleep_deficit_inv in Hin; [|assumption].
      apply sleep_deficit_rule_inv in Hin.
      destruct Hin as [m [Hm [Hlt _]]]. rewrite Hm. exact Hlt.
  - intros screen Hs.
    destruct (DataFrame.has df "screenTimeMinutes") eqn:Hc; [|discriminate].
    injection Hs as <-. unfold screen_time_insight.
    cbn [ScreenTime.excessive]. unfold Py.gtb.
    split.
    + intro Hlt.
      destruct (Np.mean (DataFrame.col Row.screenTimeMinutes df))
        as [|m] eqn:Hm; [discriminate|].
      destruct (digital_overload_rule_fires df m Hc Hm Hlt) as [s [Es Hn]].
      unfold names. rewrite <- Hn. apply in_map.
      apply identify_includes_thresholds.
      unfold threshold_stressors. rewrite Es.
      apply in_app_iff. right. now left.
    + intro Hin. unfold names in Hin. apply in_map_iff in Hin.
      destruct Hin as [s [Hn Hin]].
      apply identify_digital_overload_inv in Hin; [|assumption].
      apply digital_overload_rule_inv in Hin.
      destruct Hin as [m [Hm [Hlt _]]]. rewrite Hm. exact Hlt.
Qed.

(** Witness for X2: the three sample entries. *)
Lemma insight_flags_match_stressors_witness :
  exists r sleep,
    analyze_data (L := Reference.libs) Reference.system Reference.now
                 Reference.sample_entries = Ok r
    /\ Physical.sleep (Insights.physical (Report.insights r)) = Some sleep
    /\ Sleep.deficit sleep = true
    /\ In "Sleep Deficit" (names (Report.stressors r)).
Proof.
  match goal with
  | |- exists r sleep, ?a = Ok r /\ _ => destruct a as [r|e] eqn:E
  end; [|vm_compute in E; discriminate].
  destruct (Physical.sleep (Insights.physical (Report.insights r)))
    as [sleep|] eqn:Es;
    [|vm_compute in E; injection E as <-; discriminate Es].
  assert (Hd : Sleep.deficit sleep = true).
  { vm_compute in E. injection E as <-. vm_compute in Es.
    injection Es as <-. reflexivity. }
  exists r, sleep. split; [reflexivity|]. split; [exact Es|].
  split; [exact Hd|].
  exact (proj1 (proj1 (insight_flags_match_stressors _ _ _ r E) sleep Es) Hd).
Defined.
